(** * Classroom activity monitor (app.py): model and verified properties

    A shallow embedding of the server's decision logic and bookkeeping:
    the two classifiers ([analyze_image_advanced], [analyze_image_basic]),
    the JSON-file session log and statistics ([save_session],
    [update_statistics], [load_statistics], [get_stats], [clear_data]) and
    the ingest route ([analyze]) with its in-memory frame cache.

    Conventions.
    - A float is written as a rational ([Q]): a rational stands for the
      float nearest to it, so a float's own value stands for itself.
      Comparisons of floats are exact and are computed here. Sums,
      differences, products and quotients of floats are rounded by numpy
      and by Python: the class [FloatArith] takes them as they are, each
      giving the value of its rounded result. Equality of floats is stated
      with [Qeq] ([==]).
    - The vision models and the image decoder are outside the program:
      the class [Vision] lists what the program asks of them. The clock
      readings are arguments.
    - Exceptions are values of [result]; the module-level dictionary
      [latest_frames] and the two JSON files form the [World] that every
      handler threads through. *)

From Stdlib Require Import ZArith QArith Qround List String Bool Lia.
From stdpp Require Import base gmap strings list fin_maps pretty.

Open Scope string_scope.

(** ** Numbers *)

Module Num.

(** [a > b] and [a < b] on floats, as booleans. *)
Definition gtb (a b : Q) : bool := negb (Qle_bool a b).
Definition ltb (a b : Q) : bool := negb (Qle_bool b a).

(** Python's [round(x, 2)] on the value of a float: the nearest hundredth,
    ties to even (a tie needs a value that is a hundredth plus exactly
    0.005, such as 0.125). The result stands for the float nearest to it. *)
Definition round2 (x : Q) : Q :=
  let s := (x * 100)%Q in
  let f := Qfloor s in
  let d := (s - inject_Z f)%Q in
  let up :=
    if ltb d (1 # 2) then false
    else if gtb d (1 # 2) then true
    else Z.odd f in
  ((if up then f + 1 else f)%Z # 100)%Q.

End Num.

(** Arithmetic on floats, as the libraries perform it. [f32_*] are numpy's
    operations on the scalars of the keypoint array, [f64_*] the
    operations on Python floats and numpy's float64, [py_sum] is Python's
    [sum] over floats. Each gives the value of the float it returns. The
    one fact used about them: subtracting a smaller float from a larger one
    gives a float above zero (IEEE 754 subtraction of unequal numbers never
    rounds to zero). *)
Class FloatArith : Type := mkFloatArith {
  f32_add : Q → Q → Q;
  f32_sub : Q → Q → Q;
  f32_div : Q → Q → Q;
  f64_mul : Q → Q → Q;
  f64_div : Q → Q → Q;
  py_sum : list Q → Q;
  f32_sub_positive : ∀ a b : Q, (b < a)%Q → (0 < f32_sub a b)%Q
}.

(** ** Data model *)

(** The path-dependent keys of a result dictionary. *)
Inductive Aux : Type :=
  | PoseAux (head_down hand_raised : bool)
  | BasicAux (face_count : nat) (edge_density : Q).

(** The dictionary returned by either classifier. *)
Record AnalysisResult : Type := mkResult {
  student_id : string;
  activity : string;
  objects_detected : list string;
  is_unusual : bool;
  confidence_score : Q;
  brightness_level : Q;
  aux : Aux;
  timestamp : string;
  image_dimensions : string
}.

#[global] Instance Q_eq_dec : EqDecision Q.
Proof. solve_decision. Defined.

#[global] Instance Aux_eq_dec : EqDecision Aux.
Proof. solve_decision. Defined.

#[global] Instance AnalysisResult_eq_dec : EqDecision AnalysisResult.
Proof. solve_decision. Defined.

(** The dictionary kept in statistics.json. *)
Record Statistics : Type := mkStats {
  total_sessions : Z;
  unusual_count : Z;
  activities : gmap string Z;
  last_updated : option string
}.

(** Exceptions. *)
Inductive result (A : Type) : Type :=
  | Ok (a : A)
  | Raise (e : string).
Arguments Ok {A} a.
Arguments Raise {A} e.

(** A JSON document on disk: not there, not parseable, or holding a value. *)
Inductive file (A : Type) : Type :=
  | Missing
  | Garbled
  | Holds (a : A).
Arguments Missing {A}.
Arguments Garbled {A}.
Arguments Holds {A} a.

(** ** The activity decision (analyze_image_advanced, "Determine activity") *)

Module Classifier.

(** The three variables the if/elif chain assigns. *)
Record Verdict : Type := mkVerdict {
  v_activity : string;
  v_unusual : bool;
  v_confidence : Q
}.

Definition has (x : string) (objects_found : list string) : bool :=
  bool_decide (x ∈ objects_found).

Definition foods : list string := ["fork"; "spoon"; "bowl"; "cup"; "bottle"].

(** [any(food in objects_found for food in [...])] *)
Definition any_food (objects_found : list string) : bool :=
  existsb (fun food => has food objects_found) foods.

Definition determine_activity (objects_found : list string)
    (head_down hand_raised : bool) : Verdict :=
  if has "cell phone" objects_found then
    mkVerdict "Using Phone" true 0.95
  else if negb (has "person" objects_found) then
    mkVerdict "Student Absent" true 0.90
  else if any_food objects_found then
    mkVerdict "Eating/Drinking" true 0.85
  else if head_down && negb (has "book" objects_found)
                    && negb (has "laptop" objects_found) then
    mkVerdict "Sleeping/Distracted" true 0.75
  else if hand_raised then
    mkVerdict "Hand Raised (Participating)" false 0.90
  else if has "laptop" objects_found then
    mkVerdict "Working on Laptop" false 0.85
  else if has "book" objects_found then
    mkVerdict "Reading/Studying" false 0.80
  else if head_down then
    mkVerdict "Writing/Focused" false 0.70
  else
    mkVerdict "Attentive/Listening" false 0.65.

(** The cascade as the specification words it: an ordered table of
    (predicate, outcome) pairs, the first matching row wins. *)
Definition Rule : Type := (list string → bool → bool → bool) * Verdict.

Definition rules : list Rule :=
  [ (fun o _ _ => has "cell phone" o, mkVerdict "Using Phone" true 0.95);
    (fun o _ _ => negb (has "person" o), mkVerdict "Student Absent" true 0.90);
    (fun o _ _ => existsb (fun x => has x o) ["fork"; "spoon"; "bowl"; "cup"; "bottle"],
      mkVerdict "Eating/Drinking" true 0.85);
    (fun o hd _ => hd && negb (has "book" o || has "laptop" o),
      mkVerdict "Sleeping/Distracted" true 0.75);
    (fun _ _ hr => hr, mkVerdict "Hand Raised (Participating)" false 0.90);
    (fun o _ _ => has "laptop" o, mkVerdict "Working on Laptop" false 0.85);
    (fun o _ _ => has "book" o, mkVerdict "Reading/Studying" false 0.80);
    (fun _ hd _ => hd, mkVerdict "Writing/Focused" false 0.70) ].

Definition default_verdict : Verdict :=
  mkVerdict "Attentive/Listening" false 0.65.

Fixpoint first_match (rs : list Rule) (o : list string) (hd hr : bool) : Verdict :=
  match rs with
  | [] => default_verdict
  | (p, v) :: rs' => if p o hd hr then v else first_match rs' o hd hr
  end.

Definition cascade_spec (o : list string) (hd hr : bool) : Verdict :=
  first_match rules o hd hr.

End Classifier.

(** ** Exceptions as a monad *)

#[global] Instance result_ret : MRet result := fun _ a => Ok a.
#[global] Instance result_bind : MBind result := fun _ _ f m =>
  match m with
  | Ok a => f a
  | Raise e => Raise e
  end.

(** ** The external collaborators *)

(** One row of [results[0].boxes.data]: column 4 is the confidence,
    column 5 the class id. *)
Record Detection : Type := mkDetection {
  det_conf : Q;
  det_class : Z
}.

(** [pose_results[0].keypoints] and its [xy] tensor: per detected person,
    the (x, y) rows of the keypoints. *)
Record Keypoints : Type := mkKeypoints {
  kp_xy : option (list (list (Q * Q)))
}.

Record PoseResult : Type := mkPose {
  pr_keypoints : option Keypoints
}.

Record ObjectDetector (Image : Type) : Type := mkObjectDetector {
  od_predict : Image → result (list Detection);
  od_names : gmap Z string
}.
Arguments od_predict {Image} _ _.
Arguments od_names {Image} _.

(** What the program uses of OpenCV, numpy and the two YOLO models.
    [object_detector] and [pose_detector] are the module globals, [None]
    when loading failed at start-up. *)
Class Vision (Image : Type) : Type := mkVision {
  float_arith :: FloatArith;
  imdecode : list Byte.byte → result (option Image);
  shape : Image → Z * Z;
  mean_gray : Image → Q;
  face_cascade : Image → list (Z * Z * Z * Z);
  canny_edge_pixels : Image → Z;
  object_detector : option (ObjectDetector Image);
  pose_detector : option (Image → result (list PoseResult))
}.

(** ** The primary classifier *)

Module Pose.

(** [points[i, 1]] *)
Definition y_at (points : list (Q * Q)) (i : nat) : result Q :=
  match points !! i with
  | Some (_, y) => Ok y
  | None => Raise "IndexError"
  end.

(** The body of [if len(points) >= 11:] with its guard. *)
Definition flags `{fa : FloatArith} (points : list (Q * Q))
    : result (bool * bool) :=
  if (11 <=? length points)%nat then
    nose_y ← y_at points 0;
    left_shoulder_y ← y_at points 5;
    right_shoulder_y ← y_at points 6;
    left_wrist_y ← y_at points 9;
    right_wrist_y ← y_at points 10;
    let head_down :=
      if Num.gtb nose_y 0 && Num.gtb left_shoulder_y 0 then
        let avg_shoulder := f32_div (f32_add left_shoulder_y right_shoulder_y) 2 in
        if Num.gtb nose_y (f32_add avg_shoulder 30) then true else false
      else false in
    let hand_raised :=
      if Num.ltb left_wrist_y (f32_sub left_shoulder_y 50)
         || Num.ltb right_wrist_y (f32_sub right_shoulder_y 50)
      then true else false in
    mret (head_down, hand_raised)
  else mret (false, false).

(** From the pose model's output down to the two flags. *)
Definition of_results `{fa : FloatArith} (pose_results : list PoseResult)
    : result (bool * bool) :=
  match pose_results with
  | {| pr_keypoints := Some keypoints |} :: _ =>
      match kp_xy keypoints with
      | Some (points :: _) => flags points
      | _ => mret (false, false)
      end
  | _ => mret (false, false)
  end.

End Pose.

Section Classifiers.

Context {Image : Type} `{cv : Vision Image}.

(** The detection loop: labels of the rows with confidence above 0.5. *)
Fixpoint collect_objects (names : gmap Z string) (rows : list Detection)
    (objects_found : list string) : result (list string) :=
  match rows with
  | [] => mret objects_found
  | detection :: rows' =>
      if Num.gtb (det_conf detection) 0.5 then
        match names !! det_class detection with
        | Some object_name => collect_objects names rows' (objects_found ++ [object_name])
        | None => Raise "KeyError"
        end
      else collect_objects names rows' objects_found
  end.

Definition dimensions (width height : Z) : string :=
  pretty width +:+ "x" +:+ pretty height.

(** "Detect objects" *)
Definition detect_objects (image : Image) : result (list string) :=
  match object_detector with
  | Some det =>
      rows ← od_predict det image;
      collect_objects (od_names det) rows []
  | None => mret []
  end.

(** "Detect pose": [(head_down, hand_raised)] *)
Definition detect_pose (image : Image) : result (bool * bool) :=
  match pose_detector with
  | Some pose =>
      pose_results ← pose image;
      Pose.of_results pose_results
  | None => mret (false, false)
  end.

Definition analyze_image_advanced (image : Image) (student_id now : string)
    : result AnalysisResult :=
  let '(height, width) := shape image in
  objects_found ← detect_objects image;
  '(head_down, hand_raised) ← detect_pose image;
  let v := Classifier.determine_activity objects_found head_down hand_raised in
  let brightness := mean_gray image in
  mret {| student_id := student_id;
          activity := Classifier.v_activity v;
          objects_detected := objects_found;
          is_unusual := Classifier.v_unusual v;
          confidence_score := Num.round2 (Classifier.v_confidence v);
          brightness_level := Num.round2 brightness;
          aux := PoseAux head_down hand_raised;
          timestamp := now;
          image_dimensions := dimensions width height |}.

(** What [analyze_image_advanced] returns, given what the two models saw. *)
Definition advanced_result (image : Image) (student_id now : string)
    (objects : list string) (head_down hand_raised : bool) : AnalysisResult :=
  let v := Classifier.determine_activity objects head_down hand_raised in
  {| student_id := student_id;
     activity := Classifier.v_activity v;
     objects_detected := objects;
     is_unusual := Classifier.v_unusual v;
     confidence_score := Num.round2 (Classifier.v_confidence v);
     brightness_level := Num.round2 (mean_gray image);
     aux := PoseAux head_down hand_raised;
     timestamp := now;
     image_dimensions := dimensions (shape image).2 (shape image).1 |}.

(** ** The fallback classifier *)

(** The "Activity estimation" chain. *)
Definition estimate_activity (face_count : nat) (edge_density brightness : Q)
    : string * bool :=
  if (face_count =? 0)%nat then ("Student Absent", true)
  else if Num.gtb edge_density 15 then ("High Activity Detected", false)
  else if Num.ltb brightness 50 then ("Low Visibility", true)
  else ("Attentive", false).

Definition edge_density_of (image : Image) : Q :=
  let '(height, width) := shape image in
  f64_mul (f64_div (inject_Z (canny_edge_pixels image)) (inject_Z (width * height)))
          100.

Definition analyze_image_basic (image : Image) (student_id now : string)
    : AnalysisResult :=
  let '(height, width) := shape image in
  let faces := face_cascade image in
  let edge_density := edge_density_of image in
  let brightness := mean_gray image in
  let '(activity, is_unusual) :=
    estimate_activity (length faces) edge_density brightness in
  {| student_id := student_id;
     activity := activity;
     objects_detected := [];
     is_unusual := is_unusual;
     confidence_score := 0.6;
     brightness_level := Num.round2 brightness;
     aux := BasicAux (length faces) (Num.round2 edge_density);
     timestamp := now;
     image_dimensions := dimensions width height |}.

End Classifiers.

(** ** Program state and the handlers' monad *)

(** The module-level dictionary [latest_frames] and the two files of
    [analysis_data/]. *)
Record World (Image : Type) : Type := mkWorld {
  latest_frames : gmap string Image;
  sessions_file : file (list AnalysisResult);
  stats_file : file Statistics
}.
Arguments mkWorld {Image} _ _ _.
Arguments latest_frames {Image} _.
Arguments sessions_file {Image} _.
Arguments stats_file {Image} _.

(** A handler step: it may raise, and what it wrote before raising stays. *)
Definition M (Image A : Type) : Type := World Image → result A * World Image.

Definition ret {Image A} (a : A) : M Image A := fun w => (Ok a, w).

Definition bind {Image A B} (m : M Image A) (f : A → M Image B) : M Image B :=
  fun w =>
    match m w with
    | (Ok a, w') => f a w'
    | (Raise e, w') => (Raise e, w')
    end.

Definition lift {Image A} (r : result A) : M Image A := fun w => (r, w).

(** [try: body except Exception as e: handler(str(e))] *)
Definition try_except {Image A} (body : M Image A) (handler : string → M Image A)
    : M Image A :=
  fun w =>
    match body w with
    | (Ok a, w') => (Ok a, w')
    | (Raise e, w') => handler e w'
    end.

#[global] Instance M_ret {Image} : MRet (M Image) := @ret Image.
#[global] Instance M_bind {Image} : MBind (M Image) := fun _ _ f m => bind m f.

(** ** Data storage functions *)

Section Storage.

Context {Image : Type}.

(** [json.load] of a document, with [dflt] when the file does not exist. *)
Definition read_json {A} (dflt : A) (f : file A) : result A :=
  match f with
  | Missing => Ok dflt
  | Garbled => Raise "JSONDecodeError"
  | Holds a => Ok a
  end.

Definition load_sessions : M Image (list AnalysisResult) :=
  fun w => (read_json [] (sessions_file w), w).

Definition default_statistics : Statistics :=
  {| total_sessions := 0;
     unusual_count := 0;
     activities := ∅;
     last_updated := None |}.

Definition load_statistics : M Image Statistics :=
  fun w => (read_json default_statistics (stats_file w), w).

Definition write_sessions (sessions : list AnalysisResult) : M Image unit :=
  fun w => (Ok tt, mkWorld (latest_frames w) (Holds sessions) (stats_file w)).

Definition write_statistics (stats : Statistics) : M Image unit :=
  fun w => (Ok tt, mkWorld (latest_frames w) (sessions_file w) (Holds stats)).

(** The in-place updates of the [stats] dictionary. *)
Definition fold_into (stats : Statistics) (session_data : AnalysisResult)
    (now : string) : Statistics :=
  let a := activity session_data in
  {| total_sessions := (total_sessions stats + 1)%Z;
     activities := <[a := (default 0 (activities stats !! a) + 1)%Z]> (activities stats);
     unusual_count :=
       if is_unusual session_data then (unusual_count stats + 1)%Z
       else unusual_count stats;
     last_updated := Some now |}.

Definition update_statistics (session_data : AnalysisResult) (now : string)
    : M Image unit :=
  stats ← load_statistics;
  write_statistics (fold_into stats session_data now).

Definition save_session (session_data : AnalysisResult) (now : string)
    : M Image unit :=
  sessions ← load_sessions;
  let sessions := session_data :: sessions in
  let sessions := take 1000 sessions in
  _ ← write_sessions sessions;
  update_statistics session_data now.

(** [os.remove] of both files when they exist. *)
Definition clear_data : M Image unit :=
  fun w => (Ok tt, mkWorld (latest_frames w) Missing Missing).

(** Python's [xs[:n]] for any integer [n]. *)
Definition slice_to {A} (xs : list A) (n : Z) : list A :=
  if (0 <=? n)%Z then take (Z.to_nat n) xs
  else take (length xs - Z.to_nat (- n)) xs.

(** GET /api/sessions: the [sessions] and [count] of the reply. *)
Definition get_sessions (limit : Z) : M Image (list AnalysisResult * nat) :=
  sessions ← load_sessions;
  let sessions := slice_to sessions limit in
  ret (sessions, length sessions).

(** The keys [get_stats] adds to the statistics dictionary. *)
Record Derived : Type := mkDerived {
  average_confidence : Q;
  activity_distribution : gmap string Z;
  recent_sessions : list AnalysisResult
}.

(** The reply of GET /api/stats: the loaded dictionary, and the extra keys
    when they were set. *)
Record StatsReply : Type := mkStatsReply {
  persisted : Statistics;
  derived : option Derived
}.

(** [for s in ...: activity_dist[s['activity']] += 1] on a defaultdict(int) *)
Definition count_activities (sessions : list AnalysisResult) : gmap string Z :=
  fold_left
    (fun activity_dist s =>
       <[activity s := (default 0 (activity_dist !! activity s) + 1)%Z]> activity_dist)
    sessions ∅.

Definition get_stats `{fa : FloatArith} : M Image StatsReply :=
  stats ← load_statistics;
  sessions ← load_sessions;
  match sessions with
  | [] => ret (mkStatsReply stats None)
  | _ :: _ =>
      let recent := take 20 sessions in
      let avg_confidence :=
        f64_div (py_sum (map confidence_score recent))
                (inject_Z (Z.of_nat (length recent))) in
      let activity_dist := count_activities (take 100 sessions) in
      ret (mkStatsReply stats
             (Some {| average_confidence := Num.round2 avg_confidence;
                      activity_distribution := activity_dist;
                      recent_sessions := take 10 recent |}))
  end.

End Storage.

(** ** POST /api/analyze *)

(** A multipart request: the uploaded files and the text fields, in the order
    sent; a name may occur more than once. *)
Record Request : Type := mkRequest {
  files : list (string * list Byte.byte);
  form : list (string * string)
}.

Inductive Body : Type :=
  | ErrorBody (error : string)
  | AnalysisBody (analysis : AnalysisResult).

Record Response : Type := mkResponse {
  status : Z;
  body : Body
}.

(** Lookup in a MultiDict: the first value of the field. *)
Fixpoint multi_get {A} (key : string) (fields : list (string * A)) : option A :=
  match fields with
  | [] => None
  | (k, v) :: rest => if String.eqb key k then Some v else multi_get key rest
  end.

Section Ingest.

Context {Image : Type} `{cv : Vision Image}.

(** [with frame_lock: latest_frames[student_id] = image.copy()] *)
Definition store_frame (student_id : string) (image : Image) : M Image unit :=
  fun w => (Ok tt, mkWorld (<[student_id := image]> (latest_frames w))
                           (sessions_file w) (stats_file w)).

(** "choose method based on model availability" *)
Definition classify (image : Image) (student_id now : string)
    : result AnalysisResult :=
  match object_detector, pose_detector with
  | Some _, Some _ => analyze_image_advanced image student_id now
  | _, _ => Ok (analyze_image_basic image student_id now)
  end.

(** The [try] block of [analyze]. [t_result] and [t_stats] are the two
    readings of the clock. *)
Definition analyze_try (request : Request) (t_result t_stats : string)
    : M Image Response :=
  match multi_get "image" (files request) with
  | None => ret (mkResponse 400 (ErrorBody "No image provided"))
  | Some image_bytes =>
      let student_id := default "unknown" (multi_get "student_id" (form request)) in
      image ← lift (imdecode image_bytes);
      match image with
      | None => ret (mkResponse 400 (ErrorBody "Failed to decode image"))
      | Some image =>
          _ ← store_frame student_id image;
          analysis ← lift (classify image student_id t_result);
          _ ← save_session analysis t_stats;
          ret (mkResponse 200 (AnalysisBody analysis))
      end
  end.

Definition analyze (request : Request) (t_result t_stats : string)
    : M Image Response :=
  try_except (analyze_try request t_result t_stats)
    (fun e => ret (mkResponse 500 (ErrorBody e))).

End Ingest.

(** ** The specification's vocabulary *)

Module Spec.

(** The documented pairing of activity labels with the unusual flag. *)
Definition unusual_of : gmap string bool :=
  list_to_map
    [ ("Using Phone", true); ("Student Absent", true);
      ("Eating/Drinking", true); ("Sleeping/Distracted", true);
      ("Low Visibility", true);
      ("Hand Raised (Participating)", false); ("Working on Laptop", false);
      ("Reading/Studying", false); ("Writing/Focused", false);
      ("Attentive/Listening", false); ("High Activity Detected", false);
      ("Attentive", false) ].

(** A result dictionary that one of the two classifiers can return. *)
Inductive produced (r : AnalysisResult) : Prop :=
  | by_primary {Image} `{cv : Vision Image} (image : Image) (sid now : string) :
      analyze_image_advanced image sid now = Ok r → produced r
  | by_fallback {Image} `{cv : Vision Image} (image : Image) (sid now : string) :
      analyze_image_basic image sid now = r → produced r.

(** The y coordinate of keypoint [i]. *)
Definition y (points : list (Q * Q)) (i : nat) : Q :=
  match points !! i with
  | Some p => p.2
  | None => 0
  end.

(** Head-down as the specification reads: the nose lies more than 30 pixels
    below the shoulder average, and the two compared values are positive. *)
Definition head_down_claimed (nose_y left_shoulder_y right_shoulder_y : Q) : Prop :=
  let avg := ((left_shoulder_y + right_shoulder_y) / 2)%Q in
  (avg + 30 < nose_y)%Q ∧ (0 < nose_y)%Q ∧ (0 < avg)%Q.

(** Head-down as the guard is written: the nose and the left shoulder are
    the two values checked, and the shoulder average plus 30 is the float
    that numpy computes. *)
Definition head_down_guarded `{fa : FloatArith}
    (nose_y left_shoulder_y right_shoulder_y : Q) : Prop :=
  let avg := f32_div (f32_add left_shoulder_y right_shoulder_y) 2 in
  (0 < nose_y)%Q ∧ (0 < left_shoulder_y)%Q ∧ (f32_add avg 30 < nose_y)%Q.

(** A wrist lies above its shoulder minus 50, the difference being the
    float that numpy computes. *)
Definition hand_raised_claimed `{fa : FloatArith} (left_wrist_y right_wrist_y
    left_shoulder_y right_shoulder_y : Q) : Prop :=
  (left_wrist_y < f32_sub left_shoulder_y 50)%Q
  ∨ (right_wrist_y < f32_sub right_shoulder_y 50)%Q.

(** How many of [sessions] carry the label [a]. *)
Definition occurrences (a : string) (sessions : list AnalysisResult) : Z :=
  Z.of_nat (length (filter (fun s => activity s = a) sessions)).

(** How many of [sessions] are flagged unusual. *)
Definition flagged (sessions : list AnalysisResult) : Z :=
  Z.of_nat (length (filter (fun s => is_unusual s = true) sessions)).

(** The sum of all the counts of an activity map. *)
Definition total (m : gmap string Z) : Z :=
  map_fold (fun _ n acc => (n + acc)%Z) 0%Z m.

(** A form has a text field named [name]. *)
Definition has_field (name : string) (form : list (string * string)) : Prop :=
  ∃ v, (name, v) ∈ form.

End Spec.

(** Record one result after the other, each with its clock reading. *)
Fixpoint record_all {Image} (rs : list (AnalysisResult * string)) : M Image unit :=
  match rs with
  | [] => mret tt
  | (r, now) :: rest => _ ← save_session r now; record_all rest
  end.

(** ** A small concrete instance *)

Module Demo.

(** Images are their raw bytes: an empty buffer makes the decoder raise, a
    buffer starting with a zero byte does not decode, and a face is found
    in buffers of three bytes or more. *)
Definition decode (buf : list Byte.byte) : result (option (list Byte.byte)) :=
  match buf with
  | [] => Raise "cv2.error"
  | Byte.x00 :: _ => Ok None
  | _ => Ok (Some buf)
  end.

Definition names : gmap Z string :=
  list_to_map [ (0%Z, "person"); (63%Z, "laptop"); (67%Z, "cell phone"); (73%Z, "book") ].

(** A desk scene: a person, a phone and a book, one box below threshold. *)
Definition detector : ObjectDetector (list Byte.byte) :=
  {| od_predict := fun _ =>
       Ok [ mkDetection 0.91 0; mkDetection 0.77 67; mkDetection 0.3 63;
            mkDetection 0.64 73 ];
     od_names := names |}.

Definition broken_detector : ObjectDetector (list Byte.byte) :=
  {| od_predict := fun _ => Raise "RuntimeError"; od_names := names |}.

(** Seventeen keypoints of one person: nose at y = 260, shoulders at 200 and
    210, wrists at 320 and 120. *)
Definition keypoints17 : list (Q * Q) :=
  [ (320, 260); (0, 0); (0, 0); (0, 0); (0, 0); (280, 200); (360, 210);
    (0, 0); (0, 0); (270, 320); (370, 120); (0, 0); (0, 0); (0, 0); (0, 0);
    (0, 0); (0, 0) ]%Q.

(** The left shoulder was not located (its row is zero). *)
Definition left_shoulder_lost : list (Q * Q) :=
  [ (320, 200); (0, 0); (0, 0); (0, 0); (0, 0); (0, 0); (360, 200);
    (0, 0); (0, 0); (270, 300); (370, 300) ]%Q.

(** The right shoulder was not located. *)
Definition right_shoulder_lost : list (Q * Q) :=
  [ (320, 200); (0, 0); (0, 0); (0, 0); (0, 0); (280, 100); (0, 0);
    (0, 0); (0, 0); (270, 300); (370, 300) ]%Q.

Definition pose (_ : list Byte.byte) : result (list PoseResult) :=
  Ok [ mkPose (Some (mkKeypoints (Some [keypoints17]))) ].

(** An arithmetic that never rounds, for the examples: their keypoints are
    small integers, on which float32 arithmetic is exact as well. *)
Definition arith : FloatArith :=
  {| f32_add := Qplus;
     f32_sub := Qminus;
     f32_div := Qdiv;
     f64_mul := Qmult;
     f64_div := Qdiv;
     py_sum := fun xs => fold_left Qplus xs 0%Q;
     f32_sub_positive := fun a b H => proj1 (Qlt_minus_iff b a) H |}.

Definition vision (od : option (ObjectDetector (list Byte.byte)))
    (pd : option (list Byte.byte → result (list PoseResult)))
    : Vision (list Byte.byte) :=
  {| float_arith := arith;
     imdecode := decode;
     shape := fun _ => (480, 640)%Z;
     mean_gray := fun _ => 101.337%Q;
     face_cascade := fun image =>
       match image with
       | _ :: _ :: _ :: _ => [(10, 10, 64, 64)%Z]
       | _ => []
       end;
     canny_edge_pixels := fun _ => 30720%Z;
     object_detector := od;
     pose_detector := pd |}.

Definition with_models : Vision (list Byte.byte) :=
  vision (Some detector) (Some pose).

Definition without_models : Vision (list Byte.byte) := vision None None.

Definition with_broken_model : Vision (list Byte.byte) :=
  vision (Some broken_detector) (Some pose).

Definition jpeg : list Byte.byte := [Byte.xff; Byte.xd8; Byte.xff; Byte.xe0].

(** A frame in which the face detector finds nothing. *)
Definition empty_desk : list Byte.byte := [Byte.xff; Byte.xd8].

Definition request_cam1 : Request :=
  {| files := [("image", jpeg)]; form := [("student_id", "cam1")] |}.

Definition request_subject : Request :=
  {| files := [("image", jpeg)]; form := [("subject_id", "cam1")] |}.

Definition request_anonymous : Request :=
  {| files := [("image", jpeg)]; form := [] |}.

Definition request_no_image : Request :=
  {| files := []; form := [("student_id", "cam1")] |}.

Definition request_bad_image : Request :=
  {| files := [("image", [Byte.x00; Byte.x01])]; form := [("student_id", "cam1")] |}.

Definition empty_world : World (list Byte.byte) := mkWorld ∅ Missing Missing.

(** A result whose image width tells it apart from the others. *)
Definition sample (n : nat) : AnalysisResult :=
  {| student_id := "cam1";
     activity := if Nat.even n then "Attentive/Listening" else "Using Phone";
     objects_detected := if Nat.even n then ["person"] else ["person"; "cell phone"];
     is_unusual := negb (Nat.even n);
     confidence_score := if Nat.even n then 0.65 else 0.95;
     brightness_level := 101.34;
     aux := PoseAux false false;
     timestamp := "2024-05-01T10:00:00";
     image_dimensions := dimensions (Z.of_nat n) 480 |}.

Definition samples (n : nat) : list (AnalysisResult * string) :=
  map (fun i => (sample i, "2024-05-01T10:00:01")) (seq 0 n).

End Demo.

(** ** Live streaming and the read-only routes *)

(** What the streaming loop uses of OpenCV: [cv2.imencode('.jpg', frame)],
    whose [ret] flag is the [Some]/[None] of the answer, and the black
    480x640 frame with "Waiting for <id>..." drawn on it. *)
Class Codec (Image : Type) : Type := mkCodec {
  imencode : Image → option (list Byte.byte);
  placeholder : string → Image
}.

#[global] Instance byte_eq_dec : EqDecision Byte.byte := Byte.byte_eq_dec.

Definition crlf : list Byte.byte := [Byte.x0d; Byte.x0a].

(** [b'--frame\r\n' b'Content-Type: image/jpeg\r\n\r\n'] *)
Definition part_head : list Byte.byte :=
  list_byte_of_string "--frame" ++ crlf
  ++ list_byte_of_string "Content-Type: image/jpeg" ++ crlf ++ crlf.

(** The bytes yielded for one frame. *)
Definition multipart_chunk (frame_bytes : list Byte.byte) : list Byte.byte :=
  part_head ++ frame_bytes ++ crlf.

(** What a consumer of the stream does with one part: check the head and
    the closing line break, keep what lies between. *)
Definition chunk_payload (chunk : list Byte.byte) : option (list Byte.byte) :=
  let n := length part_head in
  if decide (take n chunk = part_head
             ∧ (n + 2 ≤ length chunk)%nat
             ∧ drop (length chunk - 2) chunk = crlf)
  then Some (take (length chunk - 2 - n) (drop n chunk))
  else None.

Section Streaming.

Context {Image : Type} `{codec : Codec Image}.

(** The [with frame_lock:] block: the cached frame, or the placeholder. *)
Definition current_frame (student_id : string) (w : World Image) : Image :=
  match latest_frames w !! student_id with
  | Some frame => frame
  | None => placeholder student_id
  end.

(** The body of [while True:] in [generate_frames]: the chunk it yields, or
    [None] when the encoder refuses the frame and the loop continues. *)
Definition stream_turn (student_id : string) (w : World Image)
    : option (list Byte.byte) :=
  match imencode (current_frame student_id w) with
  | Some buffer => Some (multipart_chunk buffer)
  | None => None
  end.

(** The generator, run for one turn per state of the program that it gets
    to see (other requests run between its turns). *)
Fixpoint generate_frames (student_id : string) (seen : list (World Image))
    : list (list Byte.byte) :=
  match seen with
  | [] => []
  | w :: rest =>
      match stream_turn student_id w with
      | Some chunk => chunk :: generate_frames student_id rest
      | None => generate_frames student_id rest
      end
  end.

End Streaming.

(** GET /api/active_streams: the keys of the cache (their order in the
    reply is not modelled). *)
Definition active_streams {Image} : M Image (list string) :=
  fun w => (Ok (map_to_list (latest_frames w)).*1, w).

(** The reply of GET /api/debug. *)
Record DebugReply : Type := mkDebugReply {
  dbg_status : string;
  dbg_active_streams : list string;
  dbg_total_sessions : nat;
  dbg_recent_sessions : list AnalysisResult;
  dbg_statistics : Statistics;
  dbg_object_detector : bool;
  dbg_pose_detector : bool
}.

Definition debug_info {Image} `{cv : Vision Image} : M Image DebugReply :=
  active ← active_streams;
  sessions ← load_sessions;
  stats ← load_statistics;
  mret {| dbg_status := "running";
          dbg_active_streams := active;
          dbg_total_sessions := length sessions;
          dbg_recent_sessions := take 5 sessions;
          dbg_statistics := stats;
          dbg_object_detector := bool_decide (is_Some object_detector);
          dbg_pose_detector := bool_decide (is_Some pose_detector) |}.

(** The labels of the rows above the threshold, when each has a name. *)
Definition labels_above_threshold (names : gmap Z string) (rows : list Detection)
    : option (list string) :=
  mapM (fun d => names !! det_class d)
       (List.filter (fun d => Num.gtb (det_conf d) 0.5) rows).

(** The nine labels of the primary classifier. *)
Definition primary_labels : list string :=
  [ "Using Phone"; "Student Absent"; "Eating/Drinking"; "Sleeping/Distracted";
    "Hand Raised (Participating)"; "Working on Laptop"; "Reading/Studying";
    "Writing/Focused"; "Attentive/Listening" ].

Module DemoStream.

(** A toy encoder: it prefixes the JPEG magic bytes and refuses frames
    that start with byte 0x01. *)
Definition codec : Codec (list Byte.byte) :=
  {| imencode := fun frame =>
       match frame with
       | Byte.x01 :: _ => None
       | _ => Some (Byte.xff :: Byte.xd8 :: frame)
       end;
     placeholder := fun student_id => list_byte_of_string ("Waiting for " +:+ student_id +:+ "...") |}.

(** A request for the models that answer, with two [student_id] fields. *)
Definition request_twice : Request :=
  {| files := [("image", Demo.jpeg)];
     form := [("note", "x"); ("student_id", "cam1"); ("student_id", "cam2")] |}.

(** A world whose statistics file cannot be parsed. *)
Definition bad_stats : World (list Byte.byte) := mkWorld ∅ (Holds []) Garbled.

(** A world whose session file cannot be parsed. *)
Definition bad_sessions : World (list Byte.byte) := mkWorld ∅ Garbled Missing.

(** The models loaded, but the pose model fails on every image. *)
Definition with_broken_pose : Vision (list Byte.byte) :=
  Demo.vision (Some Demo.detector) (Some (fun _ => Raise "RuntimeError")).

(** An upright person whose wrists were not located. *)
Definition lost_wrists : list (Q * Q) :=
  [ (320, 100); (0, 0); (0, 0); (0, 0); (0, 0); (280, 200); (360, 210);
    (0, 0); (0, 0); (0, 0); (0, 0) ]%Q.

(** Rows with a weak detection of an unnamed class. *)
Definition rows : list Detection :=
  [ mkDetection 0.91 0; mkDetection 0.5 999; mkDetection 0.77 67;
    mkDetection 0.91 0 ].

End DemoStream.

(** * Verified properties *)

(** ** Exceptions *)

(** Expose the state passing under the handlers' notation. *)
Ltac run_handler :=
  unfold mbind, M_bind, bind, lift, load_statistics, load_sessions.

Lemma result_bind_ok {A B} (m : result A) (f : A → result B) (b : B) :
  m ≫= f = Ok b ↔ ∃ a, m = Ok a ∧ f a = Ok b.
Proof.
  destruct m as [a|e]; simpl.
  - split; [intros H; exists a; auto | intros (a' & [= <-] & H); exact H].
  - split; [discriminate | intros (a' & [=] & _)].
Qed.

(** ** The primary classifier *)

Section PrimaryFacts.

Context {Image : Type} `{cv : Vision Image}.

Lemma analyze_image_advanced_returns image sid now objects hd hr :
  detect_objects image = Ok objects →
  detect_pose image = Ok (hd, hr) →
  analyze_image_advanced image sid now
    = Ok (advanced_result image sid now objects hd hr).
Proof.
  intros Ho Hp. unfold analyze_image_advanced, advanced_result.
  destruct (shape image) as [height width]. rewrite Ho. simpl. rewrite Hp.
  reflexivity.
Qed.

Lemma analyze_image_advanced_inv image sid now r :
  analyze_image_advanced image sid now = Ok r →
  ∃ objects hd hr,
    detect_objects image = Ok objects ∧ detect_pose image = Ok (hd, hr)
    ∧ r = advanced_result image sid now objects hd hr.
Proof.
  unfold analyze_image_advanced, advanced_result.
  destruct (shape image) as [height width].
  destruct (detect_objects image) as [objects|e]; [|discriminate]. simpl.
  destruct (detect_pose image) as [[hd hr]|e]; [|discriminate]. simpl.
  intros [= <-]. by exists objects, hd, hr.
Qed.

End PrimaryFacts.

Lemma has_true x objects : Classifier.has x objects = true ↔ x ∈ objects.
Proof. unfold Classifier.has. apply bool_decide_eq_true. Qed.

Lemma round2_confidence objects hd hr :
  Num.round2 (Classifier.v_confidence (Classifier.determine_activity objects hd hr))
  == Classifier.v_confidence (Classifier.determine_activity objects hd hr).
Proof.
  unfold Classifier.determine_activity.
  repeat match goal with
         | |- context [if ?b then _ else _] => destruct b
         end; reflexivity.
Qed.

(** C1. The activity, the unusual flag and the confidence are those of the
    first matching row of the nine-rule priority table; a list holding
    'cell phone' always gives "Using Phone", unusual, 0.95; and whenever the
    two models answer, the returned dictionary carries that verdict. *)
Theorem cascade_first_match_wins (objects : list string) (head_down hand_raised : bool) :
  let v := Classifier.cascade_spec objects head_down hand_raised in
  Classifier.determine_activity objects head_down hand_raised = v
  ∧ ("cell phone" ∈ objects → v = Classifier.mkVerdict "Using Phone" true 0.95)
  ∧ ∀ Image (cv : Vision Image) (image : Image) (sid now : string),
      detect_objects image = Ok objects →
      detect_pose image = Ok (head_down, hand_raised) →
      ∃ r, analyze_image_advanced image sid now = Ok r
           ∧ objects_detected r = objects
           ∧ aux r = PoseAux head_down hand_raised
           ∧ activity r = Classifier.v_activity v
           ∧ is_unusual r = Classifier.v_unusual v
           ∧ confidence_score r == Classifier.v_confidence v.
Proof.
  assert (E : Classifier.determine_activity objects head_down hand_raised
              = Classifier.cascade_spec objects head_down hand_raised).
  { unfold Classifier.cascade_spec, Classifier.rules, Classifier.first_match,
      Classifier.determine_activity, Classifier.any_food, Classifier.foods,
      Classifier.default_verdict.
    destruct (Classifier.has "cell phone" objects); [reflexivity|].
    destruct (Classifier.has "person" objects); [|reflexivity]. cbn [negb].
    destruct (existsb _ _); [reflexivity|].
    destruct head_down, (Classifier.has "book" objects),
      (Classifier.has "laptop" objects), hand_raised; reflexivity. }
  cbv zeta. split; [exact E|]. split.
  - intros Hin. apply has_true in Hin.
    unfold Classifier.cascade_spec, Classifier.rules, Classifier.first_match.
    by rewrite Hin.
  - intros Image cv image sid now Ho Hp.
    exists (advanced_result image sid now objects head_down hand_raised).
    split; [by apply analyze_image_advanced_returns|].
    rewrite <- E. unfold advanced_result; simpl.
    repeat split. apply round2_confidence.
Qed.

Lemma cascade_first_match_wins_witness :
  ∃ r, @analyze_image_advanced _ Demo.with_models Demo.jpeg "cam1" "2024-05-01T10:00:00" = Ok r
       ∧ objects_detected r = ["person"; "cell phone"; "book"]
       ∧ aux r = PoseAux true true
       ∧ activity r = "Using Phone"
       ∧ is_unusual r = true
       ∧ confidence_score r == 0.95.
Proof.
  destruct (cascade_first_match_wins ["person"; "cell phone"; "book"] true true)
    as (_ & Hphone & Hrun).
  destruct (Hrun _ Demo.with_models Demo.jpeg "cam1" "2024-05-01T10:00:00"
              eq_refl eq_refl) as (r & Hr & Ho & Ha & Hact & Hun & Hc).
  rewrite Hphone in Hact, Hun, Hc by (apply has_true; reflexivity).
  exists r. repeat split; assumption.
Defined.

(** ** Pose flags *)

Lemma gtb_true (a b : Q) : Num.gtb a b = true ↔ (b < a)%Q.
Proof.
  unfold Num.gtb. rewrite negb_true_iff, <- not_true_iff_false, Qle_bool_iff.
  split; [apply Qnot_le_lt | apply Qlt_not_le].
Qed.

Lemma ltb_true (a b : Q) : Num.ltb a b = true ↔ (a < b)%Q.
Proof. apply gtb_true. Qed.

Lemma y_at_in_range (points : list (Q * Q)) (i : nat) :
  (i < length points)%nat → Pose.y_at points i = Ok (Spec.y points i).
Proof.
  intros Hi. unfold Pose.y_at, Spec.y.
  destruct (lookup_lt_is_Some_2 points i Hi) as [[x0 y0] ->]. reflexivity.
Qed.

Lemma flags_short `{fa : FloatArith} (points : list (Q * Q)) :
  (length points < 11)%nat → Pose.flags points = Ok (false, false).
Proof.
  intros Hlen. unfold Pose.flags.
  destruct (Nat.leb_spec 11 (length points)); [lia | reflexivity].
Qed.

(** C2 (amended). With at least 11 keypoints, [head_down] holds exactly when
    the nose and the left shoulder are positive and the nose lies below the
    float that numpy computes for the shoulder average plus 30;
    [hand_raised] holds exactly when a wrist lies above the float that
    numpy computes for its shoulder minus 50. This holds whatever the
    rounding of numpy's operations is. With fewer than 11 keypoints, or
    none at all, both flags are false. *)
Theorem pose_flags_guarded `{fa : FloatArith} (points : list (Q * Q)) :
  ((11 ≤ length points)%nat →
     ∃ hd hr, Pose.flags points = Ok (hd, hr)
       ∧ (hd = true ↔
            Spec.head_down_guarded (Spec.y points 0) (Spec.y points 5) (Spec.y points 6))
       ∧ (hr = true ↔
            Spec.hand_raised_claimed (Spec.y points 9) (Spec.y points 10)
              (Spec.y points 5) (Spec.y points 6)))
  ∧ ((length points < 11)%nat → Pose.flags points = Ok (false, false))
  ∧ (∀ persons rest,
       Pose.of_results (mkPose (Some (mkKeypoints (Some (points :: persons)))) :: rest)
       = Pose.flags points)
  ∧ Pose.of_results [] = Ok (false, false)
  ∧ (∀ rest, Pose.of_results (mkPose None :: rest) = Ok (false, false))
  ∧ (∀ rest, Pose.of_results (mkPose (Some (mkKeypoints None)) :: rest)
       = Ok (false, false))
  ∧ (∀ rest, Pose.of_results (mkPose (Some (mkKeypoints (Some []))) :: rest)
       = Ok (false, false))
  ∧ (∀ Image (cv : Vision Image) (image : Image),
       pose_detector = None → detect_pose image = Ok (false, false)).
Proof.
  split; [|split; [apply flags_short | repeat split]].
  - intros Hlen. unfold Pose.flags.
    destruct (Nat.leb_spec 11 (length points)) as [_|]; [|lia].
    rewrite !y_at_in_range by lia. simpl.
    eexists _, _. split; [reflexivity|].
    unfold Spec.head_down_guarded, Spec.hand_raised_claimed. split.
    + destruct (Num.gtb (Spec.y points 0) 0) eqn:Hn; simpl.
      * apply gtb_true in Hn.
        destruct (Num.gtb (Spec.y points 5) 0) eqn:Hl; simpl.
        -- apply gtb_true in Hl.
           destruct (Num.gtb (Spec.y points 0) _) eqn:Ha.
           ++ apply gtb_true in Ha. tauto.
           ++ split; [discriminate|]. intros (_ & _ & Ha').
              apply gtb_true in Ha'. congruence.
        -- split; [discriminate|]. intros (_ & Hl' & _).
           apply gtb_true in Hl'. congruence.
      * split; [discriminate|]. intros (Hn' & _).
        apply gtb_true in Hn'. congruence.
    + destruct (Num.ltb (Spec.y points 9) _ || Num.ltb (Spec.y points 10) _) eqn:Hw.
      * apply orb_true_iff in Hw. rewrite !ltb_true in Hw. tauto.
      * split; [discriminate|]. rewrite <- !ltb_true, <- orb_true_iff. congruence.
  - intros Image cv image Hnone. unfold detect_pose. by rewrite Hnone.
Qed.

Lemma pose_flags_guarded_witness :
  Pose.flags (fa := Demo.arith) Demo.keypoints17 = Ok (true, true)
  ∧ Pose.flags (fa := Demo.arith) (take 10 Demo.keypoints17) = Ok (false, false).
Proof.
  destruct (pose_flags_guarded (fa := Demo.arith) Demo.keypoints17) as (Hlong & _).
  destruct Hlong as (hd & hr & -> & Hhd & Hhr); [simpl; lia|].
  destruct (pose_flags_guarded (fa := Demo.arith) (take 10 Demo.keypoints17))
    as (_ & Hshort & _).
  split; [|apply Hshort; simpl; lia].
  assert (hd = true) as ->.
  { apply Hhd. unfold Spec.head_down_guarded. vm_compute. auto. }
  assert (hr = true) as ->.
  { apply Hhr. right. vm_compute. reflexivity. }
  reflexivity.
Defined.

(** C2, as stated, fails. With the left shoulder at 0 and the right one at
    200 the nose (200) and the shoulder average (100) are both positive and
    the nose is more than 30 below the average, yet [head_down] is false;
    with the right shoulder at 0 instead, [head_down] is true although that
    shoulder is not a valid value. The first answer is the guard's and does
    not depend on how numpy rounds; the numbers of the second are integers
    on which float32 arithmetic is exact. *)
Lemma head_down_guard_counterexample :
  ((∀ fa : FloatArith,
      ∃ hr, Pose.flags (fa := fa) Demo.left_shoulder_lost = Ok (false, hr))
   ∧ Pose.flags (fa := Demo.arith) Demo.left_shoulder_lost = Ok (false, false)
   ∧ Spec.head_down_claimed (Spec.y Demo.left_shoulder_lost 0)
       (Spec.y Demo.left_shoulder_lost 5) (Spec.y Demo.left_shoulder_lost 6))
  ∧ (Pose.flags (fa := Demo.arith) Demo.right_shoulder_lost = Ok (true, false)
     ∧ ¬ (0 < Spec.y Demo.right_shoulder_lost 6)%Q).
Proof.
  split; [split; [|split]|split].
  - intros fa. eexists. unfold Pose.flags. cbn. reflexivity.
  - reflexivity.
  - unfold Spec.head_down_claimed. repeat split; reflexivity.
  - reflexivity.
  - vm_compute. discriminate.
Qed.

(** ** The fallback classifier *)

(** C6. The fallback decides by the first match of: no face, edge density
    above 15, brightness below 50, otherwise attentive; the confidence is
    0.60 in every branch; with no face the answer is "Student Absent",
    unusual, 0.60 whatever the edge density and the brightness. *)
Theorem fallback_first_match (face_count : nat) (edge_density brightness : Q) :
  let out := estimate_activity face_count edge_density brightness in
  (face_count = 0%nat → out = ("Student Absent", true))
  ∧ (face_count ≠ 0%nat → (15 < edge_density)%Q →
       out = ("High Activity Detected", false))
  ∧ (face_count ≠ 0%nat → ¬ (15 < edge_density)%Q → (brightness < 50)%Q →
       out = ("Low Visibility", true))
  ∧ (face_count ≠ 0%nat → ¬ (15 < edge_density)%Q → ¬ (brightness < 50)%Q →
       out = ("Attentive", false))
  ∧ ∀ Image (cv : Vision Image) (image : Image) (sid now : string),
      length (face_cascade image) = face_count →
      edge_density_of image = edge_density →
      mean_gray image = brightness →
      let r := analyze_image_basic image sid now in
      (activity r, is_unusual r) = out
      ∧ confidence_score r == 0.60
      ∧ objects_detected r = []
      ∧ aux r = BasicAux face_count (Num.round2 edge_density).
Proof.
  cbv zeta.
  assert (Hrun : ∀ Image (cv : Vision Image) (image : Image) (sid now : string),
             length (face_cascade image) = face_count →
             edge_density_of image = edge_density →
             mean_gray image = brightness →
             let r := analyze_image_basic image sid now in
             (activity r, is_unusual r)
               = estimate_activity face_count edge_density brightness
             ∧ confidence_score r == 0.60
             ∧ objects_detected r = []
             ∧ aux r = BasicAux face_count (Num.round2 edge_density)).
  { intros Image cv image sid now Hf He Hb. unfold analyze_image_basic.
    destruct (shape image) as [height width] eqn:Hs.
    rewrite Hf, Hb, He.
    destruct (estimate_activity face_count edge_density brightness) as [a u].
    simpl. done. }
  refine (conj _ (conj _ (conj _ (conj _ Hrun)))); clear Hrun;
    unfold estimate_activity.
  - by intros ->.
  - intros Hnz Hed. apply gtb_true in Hed.
    destruct (Nat.eqb_spec face_count 0); [done|]. by rewrite Hed.
  - intros Hnz Hed Hbr. apply ltb_true in Hbr.
    destruct (Nat.eqb_spec face_count 0); [done|].
    destruct (Num.gtb edge_density 15) eqn:Hg; [by apply gtb_true in Hg|].
    by rewrite Hbr.
  - intros Hnz Hed Hbr.
    destruct (Nat.eqb_spec face_count 0); [done|].
    destruct (Num.gtb edge_density 15) eqn:Hg; [by apply gtb_true in Hg|].
    destruct (Num.ltb brightness 50) eqn:Hl; [by apply ltb_true in Hl|].
    done.
Qed.

Lemma fallback_first_match_witness :
  let r := @analyze_image_basic _ Demo.without_models Demo.empty_desk "cam1"
             "2024-05-01T10:00:00" in
  activity r = "Student Absent" ∧ is_unusual r = true ∧ confidence_score r == 0.60.
Proof.
  destruct (fallback_first_match 0 (@edge_density_of _ Demo.without_models Demo.empty_desk)
              (@mean_gray _ Demo.without_models Demo.empty_desk))
    as (Habsent & _ & _ & _ & Hrun).
  destruct (Hrun _ Demo.without_models Demo.empty_desk "cam1" "2024-05-01T10:00:00"
              eq_refl eq_refl eq_refl) as (Hout & Hc & _).
  rewrite (Habsent eq_refl) in Hout. cbv zeta.
  exact (conj (f_equal fst Hout) (conj (f_equal snd Hout) Hc)).
Defined.

(** ** The unusual flag follows the activity *)

Lemma determine_activity_documented objects hd hr :
  let v := Classifier.determine_activity objects hd hr in
  Spec.unusual_of !! Classifier.v_activity v = Some (Classifier.v_unusual v).
Proof.
  unfold Classifier.determine_activity.
  repeat match goal with
         | |- context [if ?b then _ else _] => destruct b
         end; reflexivity.
Qed.

Lemma estimate_activity_documented fc ed b :
  Spec.unusual_of !! (estimate_activity fc ed b).1 = Some (estimate_activity fc ed b).2.
Proof.
  unfold estimate_activity.
  repeat match goal with
         | |- context [if ?b then _ else _] => destruct b
         end; reflexivity.
Qed.

Lemma produced_documented (r : AnalysisResult) :
  Spec.produced r → Spec.unusual_of !! activity r = Some (is_unusual r).
Proof.
  intros [Image cv image sid now H | Image cv image sid now H].
  - apply analyze_image_advanced_inv in H as (objects & hd & hr & _ & _ & ->).
    apply determine_activity_documented.
  - subst r. unfold analyze_image_basic.
    destruct (shape image) as [height width].
    pose proof (estimate_activity_documented (length (face_cascade image))
                  (edge_density_of image) (mean_gray image)) as Hd.
    destruct (estimate_activity _ _ _) as [a u]. exact Hd.
Qed.

(** C3. Every result of either classifier pairs its activity with the
    unusual flag of the fixed table, so two results with the same activity
    carry the same flag. *)
Theorem unusual_is_function_of_activity (r1 r2 : AnalysisResult) :
  Spec.produced r1 → Spec.produced r2 →
  Spec.unusual_of !! activity r1 = Some (is_unusual r1)
  ∧ (activity r1 = activity r2 → is_unusual r1 = is_unusual r2).
Proof.
  intros H1%produced_documented H2%produced_documented.
  split; [exact H1|]. intros E. rewrite E in H1. congruence.
Qed.

Lemma unusual_is_function_of_activity_witness :
  let r1 := @advanced_result _ Demo.with_models Demo.jpeg "cam1" "2024-05-01T10:00:00"
              ["person"; "cell phone"; "book"] true true in
  let r2 := @analyze_image_basic _ Demo.without_models Demo.empty_desk "cam2"
              "2024-05-01T10:00:02" in
  Spec.unusual_of !! activity r1 = Some (is_unusual r1)
  ∧ (activity r1 = activity r2 → is_unusual r1 = is_unusual r2).
Proof.
  apply unusual_is_function_of_activity.
  - apply (@Spec.by_primary _ _ Demo.with_models Demo.jpeg "cam1" "2024-05-01T10:00:00").
    reflexivity.
  - apply (@Spec.by_fallback _ _ Demo.without_models Demo.empty_desk "cam2"
             "2024-05-01T10:00:02").
    reflexivity.
Defined.

(** ** The session log and the statistics *)

Section StorageFacts.

Context {Image : Type}.

Implicit Types (w : World Image) (r : AnalysisResult) (l : list AnalysisResult).

Lemma update_statistics_run w r now s :
  read_json default_statistics (stats_file w) = Ok s →
  update_statistics r now w
    = (Ok tt, mkWorld (latest_frames w) (sessions_file w) (Holds (fold_into s r now))).
Proof.
  intros Hs. unfold update_statistics; run_handler.
  rewrite Hs. reflexivity.
Qed.

Lemma update_statistics_raises w r now e :
  read_json default_statistics (stats_file w) = Raise e →
  update_statistics r now w = (Raise e, w).
Proof.
  intros Hs. unfold update_statistics; run_handler.
  rewrite Hs. reflexivity.
Qed.

Lemma save_session_run w r now l s :
  read_json [] (sessions_file w) = Ok l →
  read_json default_statistics (stats_file w) = Ok s →
  save_session r now w
    = (Ok tt, mkWorld (latest_frames w) (Holds (take 1000 (r :: l)))
                (Holds (fold_into s r now))).
Proof.
  intros Hl Hs. unfold save_session; run_handler.
  rewrite Hl. cbn [write_sessions].
  by rewrite (update_statistics_run _ r now s).
Qed.

Lemma save_session_log w r now l :
  read_json [] (sessions_file w) = Ok l →
  sessions_file (save_session r now w).2 = Holds (take 1000 (r :: l))
  ∧ latest_frames (save_session r now w).2 = latest_frames w.
Proof.
  intros Hl. unfold save_session; run_handler.
  rewrite Hl. cbn [write_sessions].
  destruct (read_json default_statistics (stats_file w)) as [s|e] eqn:Hs.
  - by rewrite (update_statistics_run _ r now s).
  - by rewrite (update_statistics_raises _ r now e).
Qed.

Lemma save_session_raises_early w r now e :
  read_json [] (sessions_file w) = Raise e →
  save_session r now w = (Raise e, w).
Proof.
  intros Hl. unfold save_session; run_handler.
  by rewrite Hl.
Qed.

Lemma save_session_frames w r now :
  latest_frames (save_session r now w).2 = latest_frames w.
Proof.
  destruct (read_json [] (sessions_file w)) as [l|e] eqn:Hl.
  - by destruct (save_session_log w r now l Hl) as [_ ?].
  - by rewrite (save_session_raises_early _ r now e).
Qed.

Lemma take_app_take {A} (n : nat) (a b : list A) :
  take n (a ++ take n b) = take n (a ++ b).
Proof. rewrite !take_app, take_take. f_equal. f_equal. lia. Qed.

(** Recording a batch into readable files: the log is the capped prefix of
    the batch, newest first, and the statistics fold every result in. *)
Lemma record_all_run (rs : list (AnalysisResult * string)) w l s :
  read_json [] (sessions_file w) = Ok l →
  read_json default_statistics (stats_file w) = Ok s →
  (length l ≤ 1000)%nat →
  ∃ w', record_all rs w = (Ok tt, w')
        ∧ latest_frames w' = latest_frames w
        ∧ read_json [] (sessions_file w') = Ok (take 1000 (reverse rs.*1 ++ l))
        ∧ read_json default_statistics (stats_file w')
          = Ok (fold_left (fun s rn => fold_into s rn.1 rn.2) rs s).
Proof.
  revert w l s. induction rs as [|[r now] rs IH]; intros w l s Hl Hs Hlen.
  - exists w. simpl. rewrite take_ge by done. done.
  - cbn [record_all]. run_handler.
    rewrite (save_session_run w r now l s Hl Hs).
    edestruct (IH (mkWorld (latest_frames w) (Holds (take 1000 (r :: l)))
                     (Holds (fold_into s r now)))) as (w' & Hrun & Hf & Hl' & Hs');
      [reflexivity | reflexivity | rewrite length_take; lia |].
    exists w'. split; [exact Hrun|]. split; [exact Hf|]. split; [|exact Hs'].
    rewrite Hl'. rewrite take_app_take. cbn [fmap list_fmap fst].
    by rewrite reverse_cons, <- app_assoc.
Qed.

(** *** Sums of activity counts *)

Lemma total_insert_fresh (m : gmap string Z) a n :
  m !! a = None → Spec.total (<[a := n]> m) = (n + Spec.total m)%Z.
Proof.
  intros Hnone. unfold Spec.total.
  rewrite map_fold_insert_L; [done| |done]. intros; lia.
Qed.

Lemma total_increment (m : gmap string Z) a :
  Spec.total (<[a := (default 0 (m !! a) + 1)%Z]> m) = (Spec.total m + 1)%Z.
Proof.
  destruct (m !! a) as [x|] eqn:Ha; simpl.
  - rewrite <- insert_delete_eq.
    rewrite total_insert_fresh by apply lookup_delete_eq.
    assert (Spec.total m = (x + Spec.total (delete a m))%Z) as ->; [|lia].
    unfold Spec.total.
    rewrite (map_fold_delete_L _ _ a x m); [done| |done]. intros; lia.
  - rewrite total_insert_fresh by done. lia.
Qed.

Lemma occurrences_cons a r l :
  Spec.occurrences a (r :: l)
  = ((if decide (activity r = a) then 1 else 0) + Spec.occurrences a l)%Z.
Proof.
  unfold Spec.occurrences. rewrite filter_cons.
  destruct (decide (activity r = a)); simpl; lia.
Qed.

Lemma occurrences_snoc a r l :
  Spec.occurrences a (l ++ [r])
  = (Spec.occurrences a l + (if decide (activity r = a) then 1 else 0))%Z.
Proof.
  unfold Spec.occurrences. rewrite filter_app, length_app, filter_cons, filter_nil.
  destruct (decide (activity r = a)); simpl; lia.
Qed.

Lemma flagged_snoc r l :
  Spec.flagged (l ++ [r]) = (Spec.flagged l + (if is_unusual r then 1 else 0))%Z.
Proof.
  unfold Spec.flagged. rewrite filter_app, length_app, filter_cons, filter_nil.
  destruct (decide (is_unusual r = true)) as [->|Hno]; simpl; [lia|].
  destruct (is_unusual r); [done | lia].
Qed.

(** One fold into the statistics. *)
Lemma fold_into_step (s : Statistics) r now :
  let s' := fold_into s r now in
  total_sessions s' = (total_sessions s + 1)%Z
  ∧ activities s' !! activity r = Some (default 0 (activities s !! activity r) + 1)%Z
  ∧ (∀ a, a ≠ activity r → activities s' !! a = activities s !! a)
  ∧ unusual_count s' = (unusual_count s + (if is_unusual r then 1 else 0))%Z
  ∧ Spec.total (activities s') = (Spec.total (activities s) + 1)%Z
  ∧ last_updated s' = Some now.
Proof.
  cbv zeta. unfold fold_into. cbn.
  split; [done|]. split; [apply lookup_insert_eq|].
  split; [intros a Ha; by apply lookup_insert_ne|].
  split; [destruct (is_unusual r); lia|].
  split; [apply total_increment | done].
Qed.

(** A batch folded into the statistics, counted. *)
Lemma fold_into_batch (rs : list (AnalysisResult * string)) (s : Statistics) :
  let s' := fold_left (fun s rn => fold_into s rn.1 rn.2) rs s in
  total_sessions s' = (total_sessions s + Z.of_nat (length rs))%Z
  ∧ unusual_count s' = (unusual_count s + Spec.flagged rs.*1)%Z
  ∧ Spec.total (activities s') = (Spec.total (activities s) + Z.of_nat (length rs))%Z
  ∧ ∀ a, default 0%Z (activities s' !! a)
         = (default 0 (activities s !! a) + Spec.occurrences a rs.*1)%Z.
Proof.
  cbv zeta. induction rs as [|[r now] rs IH] using rev_ind.
  - cbn. unfold Spec.flagged, Spec.occurrences. cbn.
    repeat split; intros; lia.
  - rewrite fold_left_app. cbn [fold_left fst snd].
    destruct IH as (Ht & Hu & Hsum & Hocc).
    set (s1 := fold_left _ rs s) in *.
    destruct (fold_into_step s1 r now) as (Ht' & Hhit & Hmiss & Hu' & Hsum' & _).
    rewrite fmap_app, length_app. cbn [fmap list_fmap fst length].
    rewrite flagged_snoc.
    generalize dependent (if is_unusual r then 1%Z else 0%Z). intros k Hu'.
    split; [lia|]. split; [lia|]. split; [lia|].
    intros a. rewrite occurrences_snoc.
    destruct (decide (activity r = a)) as [<-|Hne].
    + rewrite Hhit. cbn [from_option id]. rewrite Hocc. cbv iota. lia.
    + rewrite Hmiss by done. rewrite Hocc. cbv iota. lia.
Qed.

End StorageFacts.

Lemma read_json_holds {A} (dflt : A) (f : file A) (a : A) :
  read_json dflt f = Ok a → a ≠ dflt → f = Holds a.
Proof. destruct f; simpl; intros [= <-]; congruence. Qed.

Lemma read_json_not_garbled {A} (dflt : A) (f : file A) :
  f ≠ Garbled → ∃ a, read_json dflt f = Ok a.
Proof. destruct f; simpl; eauto. congruence. Qed.

(** C4. After [save_session] the stored log starts with the new record,
    continues with the previous records in their order, and holds at most
    1000 entries; 1001 records written to an empty log leave exactly the
    last 1000, newest first: the first one written is gone and the last one
    written leads. *)
Theorem session_log_capped {Image : Type} :
  (∀ (w : World Image) (r : AnalysisResult) (now : string) (l : list AnalysisResult),
      read_json [] (sessions_file w) = Ok l →
      ∃ log, sessions_file (save_session r now w).2 = Holds log
             ∧ head log = Some r
             ∧ tail log = take 999 l
             ∧ (length log ≤ 1000)%nat)
  ∧ (∀ (w : World Image) (rs : list (AnalysisResult * string)),
      sessions_file w = Missing → stats_file w ≠ Garbled →
      length rs = 1001%nat →
      ∃ w' log, record_all rs w = (Ok tt, w')
        ∧ sessions_file w' = Holds log
        ∧ log = reverse (drop 1 rs.*1)
        ∧ head log = last rs.*1
        ∧ length log = 1000%nat
        ∧ ∀ first, head rs.*1 = Some first → first ∉ drop 1 rs.*1 → first ∉ log).
Proof.
  split.
  - intros w r now l Hl. exists (take 1000 (r :: l)).
    split; [by apply save_session_log|].
    change (take 1000 (r :: l)) with (r :: take 999 l).
    split; [done|]. split; [done|]. cbn [length]. rewrite length_take. lia.
  - intros w rs Hmiss Hstats Hlen.
    destruct (read_json_not_garbled default_statistics _ Hstats) as [s Hs].
    destruct (record_all_run rs w [] s) as (w' & Hrun & _ & Hl & _);
      [by rewrite Hmiss | done | simpl; lia |].
    rewrite app_nil_r, take_reverse, length_fmap, Hlen in Hl.
    change (1001 - 1000)%nat with 1%nat in Hl.
    assert (Hlog : length (reverse (drop 1 rs.*1)) = 1000%nat).
    { rewrite length_reverse, length_drop, length_fmap. lia. }
    exists w', (reverse (drop 1 rs.*1)).
    split; [done|]. split.
    { apply (read_json_holds [] _ _ Hl). intros E. by rewrite E in Hlog. }
    split; [done|]. split.
    { rewrite head_reverse. destruct rs as [|rn rs]; [done|]. simpl.
      rewrite drop_0. destruct rs; [done|]. done. }
    split; [done|].
    intros first _ Hnot. by rewrite elem_of_reverse.
Qed.

Lemma session_log_capped_witness :
  ∃ w' log, record_all (Demo.samples 1001) Demo.empty_world = (Ok tt, w')
    ∧ sessions_file w' = Holds log
    ∧ head log = Some (Demo.sample 1000)
    ∧ length log = 1000%nat
    ∧ Demo.sample 0 ∉ log.
Proof.
  destruct (@session_log_capped (list Byte.byte)) as [_ H].
  destruct (H Demo.empty_world (Demo.samples 1001)) as
    (w' & log & Hrun & Hfile & Hlog & Hhead & Hlen & Hgone).
  - reflexivity.
  - discriminate.
  - reflexivity.
  - exists w', log. split; [exact Hrun|]. split; [exact Hfile|].
    split; [rewrite Hhead; vm_compute; reflexivity|]. split; [exact Hlen|].
    apply Hgone; [reflexivity|].
    apply (bool_decide_eq_false_1 (Demo.sample 0 ∈ drop 1 (Demo.samples 1001).*1)).
    vm_compute. reflexivity.
Defined.

(** C5. From the default statistics, N records give [total_sessions] = N;
    every record adds 1 to the total and 1 to the count of its own activity
    and leaves the other counts alone, so the counts of the activity map
    keep summing to the total; [unusual_count] moves exactly on unusual
    records. The counts keep growing past the log's cap of 1000. *)
Theorem statistics_count_every_record {Image : Type} :
  (∀ (w : World Image) (r : AnalysisResult) (now : string) (s : Statistics),
      read_json default_statistics (stats_file w) = Ok s →
      ∃ s', update_statistics r now w
              = (Ok tt, mkWorld (latest_frames w) (sessions_file w) (Holds s'))
        ∧ total_sessions s' = (total_sessions s + 1)%Z
        ∧ default 0%Z (activities s' !! activity r)
          = (default 0 (activities s !! activity r) + 1)%Z
        ∧ (∀ a, a ≠ activity r → activities s' !! a = activities s !! a)
        ∧ unusual_count s'
          = (if is_unusual r then unusual_count s + 1 else unusual_count s)%Z
        ∧ (Spec.total (activities s) = total_sessions s →
           Spec.total (activities s') = total_sessions s'))
  ∧ (∀ (w : World Image) (rs : list (AnalysisResult * string)),
      sessions_file w = Missing → stats_file w = Missing →
      ∃ w' s log, record_all rs w = (Ok tt, w')
        ∧ read_json default_statistics (stats_file w') = Ok s
        ∧ total_sessions s = Z.of_nat (length rs)
        ∧ Spec.total (activities s) = total_sessions s
        ∧ unusual_count s = Spec.flagged rs.*1
        ∧ (∀ a, default 0%Z (activities s !! a) = Spec.occurrences a rs.*1)
        ∧ read_json [] (sessions_file w') = Ok log
        ∧ length log = (length rs `min` 1000)%nat).
Proof.
  split.
  - intros w r now s Hs. exists (fold_into s r now).
    split; [by apply update_statistics_run|].
    destruct (fold_into_step s r now) as (Ht & Hhit & Hmiss & Hu & Hsum & _).
    split; [done|]. split; [by rewrite Hhit|]. split; [done|].
    split; [reflexivity|]. lia.
  - intros w rs Hl Hs.
    destruct (record_all_run rs w [] default_statistics)
      as (w' & Hrun & _ & Hl' & Hs'); [by rewrite Hl | by rewrite Hs | simpl; lia |].
    destruct (fold_into_batch rs default_statistics) as (Ht & Hu & Hsum & Hocc).
    eexists w', _, _. split; [exact Hrun|]. split; [exact Hs'|].
    split; [rewrite Ht; simpl; lia|].
    split; [rewrite Hsum, Ht; reflexivity|].
    split; [rewrite Hu; simpl; lia|].
    split; [intros a; rewrite Hocc; unfold default_statistics; cbn [activities];
            rewrite lookup_empty; simpl; lia|].
    split; [exact Hl'|].
    rewrite app_nil_r, length_take, length_reverse, length_fmap. lia.
Qed.

Lemma statistics_count_every_record_witness :
  ∃ w' s log, record_all (Demo.samples 1003) Demo.empty_world = (Ok tt, w')
    ∧ read_json default_statistics (stats_file w') = Ok s
    ∧ total_sessions s = 1003%Z
    ∧ Spec.total (activities s) = 1003%Z
    ∧ unusual_count s = 501%Z
    ∧ activities s !! "Using Phone" = Some 501%Z
    ∧ read_json [] (sessions_file w') = Ok log
    ∧ length log = 1000%nat.
Proof.
  destruct (@statistics_count_every_record (list Byte.byte)) as [Hstep H].
  destruct (H Demo.empty_world (Demo.samples 1003) eq_refl eq_refl)
    as (w' & s & log & Hrun & Hs & Ht & Hsum & Hu & Hocc & Hlog & Hlen).
  exists w', s, log. split; [exact Hrun|]. split; [exact Hs|].
  assert (Ht' : total_sessions s = 1003%Z) by (rewrite Ht; reflexivity).
  split; [exact Ht'|]. split; [by rewrite Hsum|].
  split; [rewrite Hu; vm_compute; reflexivity|].
  split; [|split; [exact Hlog | rewrite Hlen; reflexivity]].
  specialize (Hocc "Using Phone").
  replace (Spec.occurrences "Using Phone" (Demo.samples 1003).*1) with 501%Z in Hocc
    by (vm_compute; reflexivity).
  destruct (activities s !! "Using Phone") as [n|]; simpl in Hocc; [by subst|discriminate].
Defined.

(** ** Reset *)

(** C9. After [clear_data], whatever the files held, the statistics load as
    the zeroed default, the session list is empty, and both files are gone. *)
Theorem clear_data_resets {Image : Type} `{fa : FloatArith} (w : World Image)
    (limit : Z) :
  let w' := (clear_data w).2 in
  (clear_data w).1 = Ok tt
  ∧ sessions_file w' = Missing ∧ stats_file w' = Missing
  ∧ load_statistics w' = (Ok default_statistics, w')
  ∧ total_sessions default_statistics = 0%Z
  ∧ unusual_count default_statistics = 0%Z
  ∧ activities default_statistics = ∅
  ∧ last_updated default_statistics = None
  ∧ get_stats w' = (Ok (mkStatsReply default_statistics None), w')
  ∧ load_sessions w' = (Ok [], w')
  ∧ get_sessions limit w' = (Ok ([], 0%nat), w').
Proof.
  cbv zeta. repeat split.
  unfold get_sessions, slice_to; run_handler. simpl.
  destruct (0 <=? limit)%Z; by rewrite ?take_nil.
Qed.

(** ** POST /api/analyze *)

Section IngestFacts.

Context {Image : Type} `{cv : Vision Image}.

Implicit Types (w : World Image) (request : Request).

Lemma analyze_no_image request t1 t2 w :
  multi_get "image" (files request) = None →
  analyze request t1 t2 w = (Ok (mkResponse 400 (ErrorBody "No image provided")), w).
Proof.
  intros Hf. unfold analyze, try_except, analyze_try. by rewrite Hf.
Qed.

Lemma analyze_decoder_raises request t1 t2 w image_bytes e :
  multi_get "image" (files request) = Some image_bytes →
  imdecode image_bytes = Raise e →
  analyze request t1 t2 w = (Ok (mkResponse 500 (ErrorBody e)), w).
Proof.
  intros Hf Hd. unfold analyze, try_except, analyze_try.
  rewrite Hf. run_handler. by rewrite Hd.
Qed.

Lemma analyze_undecodable request t1 t2 w image_bytes :
  multi_get "image" (files request) = Some image_bytes →
  imdecode image_bytes = Ok None →
  analyze request t1 t2 w
    = (Ok (mkResponse 400 (ErrorBody "Failed to decode image")), w).
Proof.
  intros Hf Hd. unfold analyze, try_except, analyze_try.
  rewrite Hf. run_handler. by rewrite Hd.
Qed.

Lemma analyze_classifier_raises request t1 t2 w image_bytes image e :
  let sid := default "unknown" (multi_get "student_id" (form request)) in
  multi_get "image" (files request) = Some image_bytes →
  imdecode image_bytes = Ok (Some image) →
  classify image sid t1 = Raise e →
  analyze request t1 t2 w = (Ok (mkResponse 500 (ErrorBody e)), (store_frame sid image w).2).
Proof.
  intros sid Hf Hd Hc. unfold analyze, try_except, analyze_try.
  rewrite Hf. run_handler. rewrite Hd.
  cbn [store_frame]. fold sid. by rewrite Hc.
Qed.

Lemma analyze_classified request t1 t2 w image_bytes image r :
  let sid := default "unknown" (multi_get "student_id" (form request)) in
  multi_get "image" (files request) = Some image_bytes →
  imdecode image_bytes = Ok (Some image) →
  classify image sid t1 = Ok r →
  analyze request t1 t2 w
  = match save_session r t2 ((store_frame sid image w).2) with
    | (Ok _, w') => (Ok (mkResponse 200 (AnalysisBody r)), w')
    | (Raise e, w') => (Ok (mkResponse 500 (ErrorBody e)), w')
    end.
Proof.
  intros sid Hf Hd Hc. unfold analyze, try_except, analyze_try.
  rewrite Hf. run_handler. rewrite Hd.
  cbn [store_frame]. fold sid. rewrite Hc.
  by destruct (save_session r t2 _) as [[[]|e] w'].
Qed.

Lemma classify_student_id (image : Image) sid now r :
  classify image sid now = Ok r → student_id r = sid.
Proof.
  unfold classify. intros H.
  assert (analyze_image_advanced image sid now = Ok r
          ∨ analyze_image_basic image sid now = r) as [Ha|Hb].
  { destruct object_detector, pose_detector; auto; injection H; auto. }
  - by apply analyze_image_advanced_inv in Ha as (? & ? & ? & _ & _ & ->).
  - subst r. unfold analyze_image_basic.
    destruct (shape image). by destruct (estimate_activity _ _ _).
Qed.

(** An [AnalysisBody] comes only from the success path. *)
Lemma analyze_inv request t1 t2 w resp w' r :
  let sid := default "unknown" (multi_get "student_id" (form request)) in
  analyze request t1 t2 w = (Ok resp, w') →
  body resp = AnalysisBody r →
  ∃ image_bytes image,
    multi_get "image" (files request) = Some image_bytes
    ∧ imdecode image_bytes = Ok (Some image)
    ∧ classify image sid t1 = Ok r
    ∧ save_session r t2 ((store_frame sid image w).2) = (Ok tt, w')
    ∧ resp = mkResponse 200 (AnalysisBody r).
Proof.
  intros sid Hrun Hbody.
  destruct (multi_get "image" (files request)) as [image_bytes|] eqn:Hf.
  2:{ rewrite analyze_no_image in Hrun by done.
      injection Hrun as <- _. discriminate. }
  destruct (imdecode image_bytes) as [[image|]|e] eqn:Hd.
  - destruct (classify image sid t1) as [r0|e] eqn:Hc.
    + rewrite (analyze_classified _ _ _ _ _ _ _ Hf Hd Hc) in Hrun.
      destruct (save_session r0 t2 _) as [[[]|e] w0] eqn:Hs.
      * injection Hrun as <- <-. injection Hbody as <-.
        by exists image_bytes, image.
      * injection Hrun as <- _. discriminate.
    + rewrite (analyze_classifier_raises _ _ _ _ _ _ _ Hf Hd Hc) in Hrun.
      injection Hrun as <- _. discriminate.
  - rewrite (analyze_undecodable _ _ _ _ _ Hf Hd) in Hrun.
    injection Hrun as <- _. discriminate.
  - rewrite (analyze_decoder_raises _ _ _ _ _ _ Hf Hd) in Hrun.
    injection Hrun as <- _. discriminate.
Qed.

End IngestFacts.

Lemma multi_get_none {A} key (fields : list (string * A)) :
  multi_get key fields = None ↔ ∀ v, (key, v) ∉ fields.
Proof.
  induction fields as [|[k v] rest IH]; simpl.
  - split; [intros _ v Hin; by apply elem_of_nil in Hin | done].
  - destruct (String.eqb_spec key k) as [->|Hne].
    + split; [discriminate|]. intros H. destruct (H v). by left.
    + rewrite IH. split.
      * intros H v' [[= ? ?]|Hin]%elem_of_cons; [done | by apply (H v')].
      * intros H v' Hin. apply (H v'). by right.
Qed.

Lemma multi_get_only {A} key (fields : list (string * A)) (x : A) :
  (key, x) ∈ fields → (∀ v, (key, v) ∈ fields → v = x) →
  multi_get key fields = Some x.
Proof.
  intros Hin Hall.
  destruct (multi_get key fields) as [v|] eqn:Hg.
  - f_equal. apply Hall. clear Hin Hall.
    induction fields as [|[k v'] rest IH]; [done|]. simpl in Hg.
    destruct (String.eqb_spec key k) as [->|Hne].
    + injection Hg as ->. by left.
    + right. by apply IH.
  - destruct (proj1 (multi_get_none _ _) Hg x Hin).
Qed.

(** C10. Once the image decodes, the frame of the subject is in the cache
    whatever happens next: a classifier or a recorder that raises gives a
    500 reply and the cache keeps the new frame. A 400 reply (no image, or
    an image that does not decode) leaves the whole state as it was. *)
Theorem frame_cached_before_analysis {Image : Type} `{cv : Vision Image}
    (request : Request) (t_result t_stats : string) (w : World Image) :
  let sid := default "unknown" (multi_get "student_id" (form request)) in
  ∃ resp w', analyze request t_result t_stats w = (Ok resp, w')
    ∧ (status resp = 400%Z → w' = w)
    ∧ (multi_get "image" (files request) = None → status resp = 400%Z)
    ∧ (∀ image_bytes, multi_get "image" (files request) = Some image_bytes →
         imdecode image_bytes = Ok None → status resp = 400%Z)
    ∧ (∀ image_bytes image,
         multi_get "image" (files request) = Some image_bytes →
         imdecode image_bytes = Ok (Some image) →
         latest_frames w' = <[sid := image]> (latest_frames w)
         ∧ (∀ e, classify image sid t_result = Raise e →
              resp = mkResponse 500 (ErrorBody e))
         ∧ (∀ r e, classify image sid t_result = Ok r →
              (save_session r t_stats (store_frame sid image w).2).1 = Raise e →
              resp = mkResponse 500 (ErrorBody e))
         ∧ (∀ r, classify image sid t_result = Ok r →
              (save_session r t_stats (store_frame sid image w).2).1 = Ok tt →
              resp = mkResponse 200 (AnalysisBody r))).
Proof.
  intros sid.
  destruct (multi_get "image" (files request)) as [image_bytes|] eqn:Hf.
  2:{ eexists _, _. split; [by apply analyze_no_image|].
      split; [done|]. split; [done|]. split; intros; simplify_eq. }
  destruct (imdecode image_bytes) as [[image|]|e] eqn:Hd.
  - destruct (classify image sid t_result) as [r|e] eqn:Hc.
    + pose proof (analyze_classified request t_result t_stats w _ _ _ Hf Hd Hc) as Hrun.
      pose proof (save_session_frames (store_frame sid image w).2 r t_stats) as Hfr.
      fold sid in Hrun.
      destruct (save_session r t_stats _) as [[[]|e] w'] eqn:Hs;
        cbn [snd] in Hfr;
        eexists _, w'; (split; [exact Hrun|]); (split; [discriminate|]);
        (split; [discriminate|]); (split; [intros ? [= <-]; congruence|]);
        intros ? image' [= <-] Himg; rewrite Hd in Himg; injection Himg as <-;
        (split; [exact Hfr|]); rewrite Hc; cbn [fst].
      * split; [by intros ? [=]|]. split.
        -- intros ? ? [= <-] Hsave. by rewrite Hs in Hsave.
        -- by intros ? [= <-] _.
      * split; [by intros ? [=]|]. split.
        -- intros ? ? [= <-] Hsave. rewrite Hs in Hsave. by injection Hsave as <-.
        -- intros ? [= <-] Hsave. by rewrite Hs in Hsave.
    + pose proof (analyze_classifier_raises request t_result t_stats w _ _ _ Hf Hd Hc)
        as Hrun.
      eexists _, _. split; [exact Hrun|]. split; [discriminate|].
      split; [discriminate|]. split; [by intros ? [= <-]; congruence|].
      intros ? image' [= <-] Himg. rewrite Hd in Himg. injection Himg as <-.
      fold sid. rewrite Hc. split; [done|]. split; [by intros ? [= <-]|].
      split; [by intros ? ? [=]|by intros ? [=]].
  - eexists _, _. split; [by eapply analyze_undecodable|].
    split; [done|]. split; [done|]. split; [done|].
    intros ? ? [= <-] Himg. congruence.
  - eexists _, _. split; [by eapply analyze_decoder_raises|].
    split; [discriminate|]. split; [discriminate|].
    split; [intros ? [= <-] Himg; congruence|].
    intros ? ? [= <-] Himg. congruence.
Qed.

Lemma frame_cached_before_analysis_witness :
  ∃ w', @analyze _ Demo.with_broken_model Demo.request_cam1
          "2024-05-01T10:00:00" "2024-05-01T10:00:01" Demo.empty_world
        = (Ok (mkResponse 500 (ErrorBody "RuntimeError")), w')
    ∧ latest_frames w' !! "cam1" = Some Demo.jpeg
    ∧ sessions_file w' = Missing.
Proof.
  destruct (@frame_cached_before_analysis _ Demo.with_broken_model Demo.request_cam1
              "2024-05-01T10:00:00" "2024-05-01T10:00:01" Demo.empty_world)
    as (resp & w' & Hrun & _ & _ & _ & Hdecoded).
  destruct (Hdecoded Demo.jpeg Demo.jpeg eq_refl eq_refl) as (Hfr & Hraise & _).
  rewrite (Hraise "RuntimeError" eq_refl) in Hrun.
  exists w'. split; [exact Hrun|]. split.
  - rewrite Hfr. apply lookup_insert_eq.
  - vm_compute in Hrun. by injection Hrun as <-.
Defined.

(** C7 (amended). The identifier of the produced record is the value of the
    form's [student_id] field, and "unknown" when the form has no field of
    that name; the record is the one stored at the head of the log. Every
    request whose image decodes, whose classifier answers and whose files
    are readable produces such a record. *)
Theorem student_id_from_form {Image : Type} `{cv : Vision Image}
    (request : Request) (t_result t_stats : string) (w : World Image) :
  let sid := default "unknown" (multi_get "student_id" (form request)) in
  (∀ resp w' r,
      analyze request t_result t_stats w = (Ok resp, w') →
      body resp = AnalysisBody r →
      student_id r = sid
      ∧ (∀ X, ("student_id", X) ∈ form request →
              (∀ v, ("student_id", v) ∈ form request → v = X) →
              student_id r = X)
      ∧ ((∀ v, ("student_id", v) ∉ form request) → student_id r = "unknown")
      ∧ ∃ log, sessions_file w' = Holds log ∧ head log = Some r)
  ∧ (∀ image_bytes image r,
      multi_get "image" (files request) = Some image_bytes →
      imdecode image_bytes = Ok (Some image) →
      classify image sid t_result = Ok r →
      sessions_file w ≠ Garbled → stats_file w ≠ Garbled →
      ∃ w', analyze request t_result t_stats w
            = (Ok (mkResponse 200 (AnalysisBody r)), w')).
Proof.
  intros sid. split.
  - intros resp w' r Hrun Hbody.
    destruct (analyze_inv request t_result t_stats w resp w' r Hrun Hbody)
      as (image_bytes & image & Hf & Hd & Hc & Hs & ->).
    fold sid in Hc, Hs.
    assert (Hsid : student_id r = sid) by by apply classify_student_id in Hc.
    split; [exact Hsid|]. split; [|split].
    + intros X Hin Honly. rewrite Hsid. unfold sid.
      by rewrite (multi_get_only _ _ X Hin Honly).
    + intros Hnone. rewrite Hsid. unfold sid.
      by rewrite (proj2 (multi_get_none _ _) Hnone).
    + destruct (read_json [] (sessions_file (store_frame sid image w).2))
        as [l|e] eqn:Hl.
      * destruct (save_session_log _ r t_stats l Hl) as [Hlog _].
        rewrite Hs in Hlog. by exists (take 1000 (r :: l)).
      * rewrite (save_session_raises_early _ r t_stats e Hl) in Hs. discriminate.
  - intros image_bytes image r Hf Hd Hc Hsess Hstats.
    rewrite (analyze_classified request t_result t_stats w _ _ _ Hf Hd Hc).
    destruct (read_json_not_garbled [] _ Hsess) as [l Hl].
    destruct (read_json_not_garbled default_statistics _ Hstats) as [s Hs].
    fold sid.
    rewrite (save_session_run (store_frame sid image w).2 r t_stats l s Hl Hs).
    eauto.
Qed.

Lemma student_id_from_form_witness :
  ∃ r w',
    @analyze _ Demo.with_models Demo.request_cam1
      "2024-05-01T10:00:00" "2024-05-01T10:00:01" Demo.empty_world
    = (Ok (mkResponse 200 (AnalysisBody r)), w')
    ∧ student_id r = "cam1"
    ∧ ∃ log, sessions_file w' = Holds log ∧ head log = Some r.
Proof.
  destruct (@student_id_from_form _ Demo.with_models Demo.request_cam1
              "2024-05-01T10:00:00" "2024-05-01T10:00:01" Demo.empty_world)
    as [Hid Hrun].
  destruct (Hrun Demo.jpeg Demo.jpeg
              (@advanced_result _ Demo.with_models Demo.jpeg "cam1"
                 "2024-05-01T10:00:00" ["person"; "cell phone"; "book"] true true)
              eq_refl eq_refl eq_refl) as [w' Hw']; [discriminate..|].
  destruct (Hid _ w' _ Hw' eq_refl) as (Hsid & _ & _ & Hlog).
  eexists _, w'. split; [exact Hw'|]. split; [exact Hsid | exact Hlog].
Defined.

(** C7, as stated, fails: a form whose only text field is
    [subject_id = "cam1"] yields a record for "unknown". *)
Lemma subject_id_field_counterexample :
  ("subject_id", "cam1") ∈ form Demo.request_subject
  ∧ ∃ r w',
      @analyze _ Demo.with_models Demo.request_subject
        "2024-05-01T10:00:00" "2024-05-01T10:00:01" Demo.empty_world
      = (Ok (mkResponse 200 (AnalysisBody r)), w')
      ∧ student_id r = "unknown"
      ∧ student_id r ≠ "cam1".
Proof.
  split; [by left|].
  eexists _, _. split; [vm_compute; reflexivity|]. by split.
Qed.

(** ** GET /api/stats *)

Lemma take_min_length {A} (n : nat) (l : list A) :
  take (n `min` length l) l = take n l.
Proof.
  destruct (Nat.le_gt_cases (length l) n) as [Hle|Hgt].
  - rewrite Nat.min_r by done. by rewrite !take_ge by lia.
  - by rewrite Nat.min_l by lia.
Qed.

Lemma occurrences_nonneg a l : (0 ≤ Spec.occurrences a l)%Z.
Proof. unfold Spec.occurrences. lia. Qed.

(** The tally holds, for each label, the number of records that carry it,
    and no entry for the labels that do not occur. *)
Lemma count_activities_spec (sessions : list AnalysisResult) (a : string) :
  count_activities sessions !! a
  = if decide (Spec.occurrences a sessions = 0%Z) then None
    else Some (Spec.occurrences a sessions).
Proof.
  unfold count_activities. induction sessions as [|s l IH] using rev_ind.
  - cbn [fold_left]. rewrite lookup_empty. reflexivity.
  - rewrite fold_left_app. cbn [fold_left]. rewrite occurrences_snoc.
    pose proof (occurrences_nonneg a l) as Hpos.
    destruct (decide (activity s = a)) as [<-|Hne].
    + rewrite lookup_insert_eq, IH.
      destruct (decide (Spec.occurrences (activity s) l = 0%Z)) as [->|Hnz];
        cbn [from_option id]; rewrite decide_False by lia; reflexivity.
    + rewrite lookup_insert_ne by done. rewrite IH, Z.add_0_r. reflexivity.
Qed.

(** C8 (amended). For a log with at least one record, the reply holds the
    persisted statistics and, computed from the log read by this call: the
    float that Python computes as the sum of the confidences of the
    k = min(20, length) most recent records divided by k, rounded to two
    decimals; the tally of activities over the min(100, length) most recent
    records; and the records among the 10 most recent. This holds whatever
    the rounding of the sum and of the quotient is. For an empty log the
    reply is the persisted statistics alone. The call stores nothing. *)
Theorem stats_views_of_current_log {Image : Type} `{fa : FloatArith}
    (w : World Image) (s : Statistics) (l : list AnalysisResult) :
  read_json default_statistics (stats_file w) = Ok s →
  read_json [] (sessions_file w) = Ok l →
  (l = [] → get_stats w = (Ok (mkStatsReply s None), w))
  ∧ (l ≠ [] →
     ∃ d, get_stats w = (Ok (mkStatsReply s (Some d)), w)
       ∧ average_confidence d
         = Num.round2
             (f64_div (py_sum (confidence_score <$> take (20 `min` length l) l))
                      (inject_Z (Z.of_nat (20 `min` length l))))
       ∧ (∀ a, activity_distribution d !! a
               = if decide (Spec.occurrences a (take (100 `min` length l) l) = 0%Z)
                 then None
                 else Some (Spec.occurrences a (take (100 `min` length l) l)))
       ∧ recent_sessions d = take (10 `min` length l) l).
Proof.
  intros Hs Hl.
  unfold get_stats; run_handler.
  rewrite Hs, Hl. split; [by intros ->|]. intros Hne.
  destruct l as [|r0 l0]; [done|]. set (l := r0 :: l0) in *.
  eexists. split; [reflexivity|]. cbn [average_confidence activity_distribution
                                        recent_sessions].
  rewrite !take_min_length. split; [|split].
  - rewrite length_take. reflexivity.
  - intros a. apply count_activities_spec.
  - rewrite take_take. reflexivity.
Qed.

Lemma stats_views_of_current_log_witness :
  let w := (record_all (Demo.samples 30) Demo.empty_world).2 in
  ∃ s d, get_stats (fa := Demo.arith) w = (Ok (mkStatsReply s (Some d)), w)
    ∧ total_sessions s = 30%Z
    ∧ average_confidence d == 0.8
    ∧ activity_distribution d !! "Using Phone" = Some 15%Z
    ∧ length (recent_sessions d) = 10%nat.
Proof.
  intros w.
  destruct (stats_views_of_current_log (fa := Demo.arith) w
              (fold_left (fun s rn => fold_into s rn.1 rn.2) (Demo.samples 30)
                 default_statistics)
              (take 1000 (reverse (Demo.samples 30).*1)))
    as [_ H]; [vm_compute; reflexivity | vm_compute; reflexivity |].
  destruct H as (d & Hrun & Havg & Hdist & Hrecent); [discriminate|].
  eexists _, d. split; [exact Hrun|]. split; [vm_compute; reflexivity|].
  split; [rewrite Havg; vm_compute; reflexivity|].
  split; [rewrite Hdist; vm_compute; reflexivity|].
  rewrite Hrecent. vm_compute. reflexivity.
Defined.

(** C8, as stated, fails on an empty log: the reply carries no
    [average_confidence], no [activity_distribution], no [recent_sessions],
    whatever the float arithmetic is. *)
Lemma stats_of_empty_log_counterexample :
  (∀ fa : FloatArith,
     get_stats (fa := fa) Demo.empty_world
     = (Ok (mkStatsReply default_statistics None), Demo.empty_world))
  ∧ ¬ ∃ d, derived (mkStatsReply default_statistics None) = Some d.
Proof.
  split; [reflexivity|]. intros [d Hd]. discriminate.
Qed.

(** * Further properties of the code *)

(** ** The activity decision *)

Lemma has_ext x (objects objects' : list string) :
  (∀ y, y ∈ objects ↔ y ∈ objects') →
  Classifier.has x objects = Classifier.has x objects'.
Proof. intros H. unfold Classifier.has. apply bool_decide_ext, H. Qed.

Lemma has_false x objects : Classifier.has x objects = false ↔ x ∉ objects.
Proof. unfold Classifier.has. apply bool_decide_eq_false. Qed.

Lemma any_food_true objects :
  Classifier.any_food objects = true
  ↔ ∃ food, food ∈ Classifier.foods ∧ food ∈ objects.
Proof.
  unfold Classifier.any_food. rewrite existsb_exists. split.
  - intros (food & Hin & Hhas). exists food.
    split; [by apply list_elem_of_In | by apply has_true].
  - intros (food & Hin & Hhas). exists food.
    split; [by apply list_elem_of_In | by apply has_true].
Qed.

(** X1. The verdict depends on which labels were detected, not on their
    order nor on how often each was detected. *)
Theorem verdict_depends_on_label_set (objects objects' : list string)
    (head_down hand_raised : bool) :
  (∀ x, x ∈ objects ↔ x ∈ objects') →
  Classifier.determine_activity objects head_down hand_raised
  = Classifier.determine_activity objects' head_down hand_raised.
Proof.
  intros Hsame.
  unfold Classifier.determine_activity, Classifier.any_food, Classifier.foods.
  cbn [existsb]. by rewrite !(has_ext _ objects objects' Hsame).
Qed.

Lemma verdict_depends_on_label_set_witness :
  Classifier.determine_activity ["book"; "person"; "book"; "person"] true false
  = Classifier.determine_activity ["person"; "book"] true false.
Proof.
  apply verdict_depends_on_label_set. intros x.
  rewrite !elem_of_cons, !elem_of_nil. tauto.
Defined.

(** X2. A verdict is flagged unusual exactly when a phone is seen, or no
    person is seen, or food or drink is seen, or the head is down with
    neither book nor laptop in view; a raised hand never changes the flag. *)
Theorem unusual_exactly_when (objects : list string) (head_down hand_raised : bool) :
  (Classifier.v_unusual (Classifier.determine_activity objects head_down hand_raised)
   = true)
  ↔ "cell phone" ∈ objects
    ∨ "person" ∉ objects
    ∨ (∃ food, food ∈ Classifier.foods ∧ food ∈ objects)
    ∨ (head_down = true ∧ ("book" ∉ objects) ∧ ("laptop" ∉ objects)).
Proof.
  rewrite <- any_food_true, <- !has_false, <- !has_true.
  unfold Classifier.determine_activity.
  destruct (Classifier.has "cell phone" objects), (Classifier.has "person" objects),
    (Classifier.any_food objects), head_down, (Classifier.has "book" objects),
    (Classifier.has "laptop" objects), hand_raised; simpl; split;
    intros; try done; try tauto;
    repeat match goal with
           | H : _ ∨ _ |- _ => destruct H
           | H : _ ∧ _ |- _ => destruct H
           end; done.
Qed.

(** X3. Whatever the detectors report, the activity of the primary verdict
    is one of its nine labels (never the initial "Unknown"); and the
    confidence of every result of either classifier lies between 0.6 and
    0.95, hence in [0, 1]. *)
Theorem label_and_confidence_range :
  (∀ objects head_down hand_raised,
      Classifier.v_activity (Classifier.determine_activity objects head_down hand_raised)
      ∈ primary_labels)
  ∧ (∀ r, Spec.produced r →
      activity r ≠ "Unknown"
      ∧ (0.6 <= confidence_score r)%Q ∧ (confidence_score r <= 0.95)%Q
      ∧ (0 <= confidence_score r)%Q ∧ (confidence_score r <= 1)%Q).
Proof.
  split.
  - intros objects hd hr. unfold Classifier.determine_activity, primary_labels.
    repeat match goal with
           | |- context [if ?b then _ else _] => destruct b
           end; cbn [Classifier.v_activity]; set_solver.
  - intros r [Image cv image sid now H | Image cv image sid now H].
    + apply analyze_image_advanced_inv in H as (objects & hd & hr & _ & _ & ->).
      unfold advanced_result, Classifier.determine_activity. cbn.
      repeat match goal with
             | |- context [if ?b then _ else _] => destruct b
             end; cbn; (split; [discriminate|]); repeat split; discriminate.
    + subst r. unfold analyze_image_basic.
      destruct (shape image) as [height width].
      unfold estimate_activity.
      repeat match goal with
             | |- context [if ?b then _ else _] => destruct b
             end; cbn; (split; [discriminate|]); repeat split; discriminate.
Qed.

Lemma label_and_confidence_range_witness :
  let r := @analyze_image_basic _ Demo.without_models Demo.jpeg "cam1"
             "2024-05-01T10:00:00" in
  activity r ≠ "Unknown" ∧ (0 <= confidence_score r)%Q ∧ (confidence_score r <= 1)%Q.
Proof.
  destruct label_and_confidence_range as [_ H].
  destruct (H (@analyze_image_basic _ Demo.without_models Demo.jpeg "cam1"
                 "2024-05-01T10:00:00")) as (Hu & _ & _ & H0 & H1).
  - by apply (@Spec.by_fallback _ _ Demo.without_models Demo.jpeg "cam1"
                "2024-05-01T10:00:00").
  - cbv zeta. auto.
Defined.

(** ** Object detection *)

(** X4. The detection loop returns, after the labels it started with, the
    labels of the rows whose confidence is strictly above 0.5, in detection
    order and with repetitions; it raises KeyError exactly when such a row
    has a class id without a name. Rows at or below 0.5 are skipped before
    their class id is looked at. *)
Theorem collect_objects_filters (names : gmap Z string) (rows : list Detection)
    (objects_found : list string) :
  collect_objects names rows objects_found
  = match labels_above_threshold names rows with
    | Some labels => Ok (objects_found ++ labels)%list
    | None => Raise "KeyError"
    end
  ∧ (labels_above_threshold names rows = None
     ↔ ∃ d, d ∈ rows ∧ (0.5 < det_conf d)%Q ∧ names !! det_class d = None)
  ∧ (∀ labels x, labels_above_threshold names rows = Some labels →
       x ∈ labels →
       ∃ d, d ∈ rows ∧ (0.5 < det_conf d)%Q ∧ names !! det_class d = Some x).
Proof.
  unfold labels_above_threshold. split; [|split].
  - revert objects_found. induction rows as [|d rows IH]; intros acc.
    + cbn. by rewrite app_nil_r.
    + cbn [collect_objects List.filter].
      destruct (Num.gtb (det_conf d) 0.5); [|apply IH].
      cbn [mapM]. destruct (names !! det_class d) as [name|]; [|reflexivity].
      rewrite IH. cbn.
      destruct (mapM _ _) as [labels|]; cbn; [|reflexivity].
      by rewrite <- app_assoc.
  - induction rows as [|d rows IH].
    + cbn. split; [discriminate|]. intros (d & Hd & _). by apply elem_of_nil in Hd.
    + cbn [List.filter]. destruct (Num.gtb (det_conf d) 0.5) eqn:Hc.
      * cbn [mapM]. destruct (names !! det_class d) as [name|] eqn:Hn.
        -- cbn. destruct (mapM _ _) as [labels|] eqn:Hm; cbn.
           ++ split; [discriminate|]. intros (d' & [->|Hd']%elem_of_cons & Hc' & Hn').
              ** congruence.
              ** assert (Some labels = None) by (apply IH; eauto).
                 discriminate.
           ++ split; [|done]. intros _.
              destruct (proj1 IH eq_refl) as (d' & Hd' & Hc' & Hn').
              exists d'. split; [by right | done].
        -- split; [|done]. intros _. exists d.
           split; [by left|]. split; [by apply gtb_true | done].
      * rewrite IH. split.
        -- intros (d' & Hd' & H'). exists d'. split; [by right | done].
        -- intros (d' & [->|Hd']%elem_of_cons & Hc' & Hn'); [|eauto].
           apply gtb_true in Hc'. congruence.
  - induction rows as [|d rows IH]; intros labels x.
    + cbn. intros [= <-] Hx. by apply elem_of_nil in Hx.
    + cbn [List.filter]. destruct (Num.gtb (det_conf d) 0.5) eqn:Hc.
      * cbn [mapM]. destruct (names !! det_class d) as [name|] eqn:Hn; [|discriminate].
        cbn. destruct (mapM _ _) as [labels'|] eqn:Hm; cbn; [|discriminate].
        intros [= <-] [->|Hx]%elem_of_cons.
        -- exists d. split; [by left|]. split; [by apply gtb_true | done].
        -- destruct (IH labels' x eq_refl Hx) as (d' & Hd' & H').
           exists d'. split; [by right | done].
      * intros Hl Hx. destruct (IH labels x Hl Hx) as (d' & Hd' & H').
        exists d'. split; [by right | done].
Qed.

Lemma collect_objects_filters_witness :
  collect_objects Demo.names DemoStream.rows []
  = Ok ["person"; "cell phone"; "person"].
Proof.
  destruct (collect_objects_filters Demo.names DemoStream.rows []) as [-> _].
  reflexivity.
Defined.

(** ** Pose *)

Lemma pose_flags_total_aux `{fa : FloatArith} (points : list (Q * Q)) :
  (11 ≤ length points)%nat →
  ∃ hd hr, Pose.flags points = Ok (hd, hr)
    ∧ (hr = true ↔
         Spec.hand_raised_claimed (Spec.y points 9) (Spec.y points 10)
           (Spec.y points 5) (Spec.y points 6)).
Proof.
  intros Hlen. unfold Pose.flags.
  destruct (Nat.leb_spec 11 (length points)) as [_|]; [|lia].
  rewrite !y_at_in_range by lia. cbn.
  eexists _, _. split; [reflexivity|]. unfold Spec.hand_raised_claimed.
  destruct (Num.ltb (Spec.y points 9) _ || Num.ltb (Spec.y points 10) _) eqn:Hw.
  - apply orb_true_iff in Hw. rewrite !ltb_true in Hw. tauto.
  - split; [discriminate|]. rewrite <- !ltb_true, <- orb_true_iff. congruence.
Qed.

Lemma flags_returns `{fa : FloatArith} (points : list (Q * Q)) :
  ∃ hd hr, Pose.flags points = Ok (hd, hr).
Proof.
  destruct (Nat.le_gt_cases 11 (length points)) as [Hlong|Hshort].
  - destruct (pose_flags_total_aux points Hlong) as (hd & hr & H & _). eauto.
  - exists false, false. by apply flags_short.
Qed.

(** X5. Reading the keypoints never fails: for every array of keypoints and
    every answer of the pose model the two flags are computed (the guard on
    11 rows keeps every index in range), so pose detection raises only when
    the pose model itself raises. *)
Theorem pose_reading_never_fails `{fa : FloatArith} :
  (∀ points : list (Q * Q), ∃ hd hr, Pose.flags points = Ok (hd, hr))
  ∧ (∀ pose_results, ∃ hd hr, Pose.of_results pose_results = Ok (hd, hr))
  ∧ (∀ Image (cv : Vision Image) (image : Image) e,
       detect_pose image = Raise e →
       ∃ pose, pose_detector = Some pose ∧ pose image = Raise e).
Proof.
  assert (Hres : ∀ (fa' : FloatArith) pose_results,
             ∃ hd hr, Pose.of_results (fa := fa') pose_results = Ok (hd, hr)).
  { intros fa' [|[[[[[|points persons]|]]|]] rest]; cbn; eauto using flags_returns. }
  split; [apply flags_returns|]. split; [apply Hres|].
  intros Image cv image e. unfold detect_pose.
  destruct pose_detector as [pose|]; [|discriminate].
  destruct (pose image) as [pose_results|e'] eqn:Hp; cbn.
  - destruct (Hres float_arith pose_results) as (hd & hr & ->). discriminate.
  - intros [= ->]. eauto.
Qed.

(** X6. The flags read five numbers only: the y coordinates of keypoints
    0, 5, 6, 9 and 10. Two arrays of at least 11 keypoints that agree on
    them give the same flags, whatever the x coordinates and the other
    keypoints are. *)
Theorem flags_read_five_coordinates `{fa : FloatArith}
    (points points' : list (Q * Q)) :
  (11 ≤ length points)%nat → (11 ≤ length points')%nat →
  (∀ i, i ∈ [0; 5; 6; 9; 10]%nat → Spec.y points i = Spec.y points' i) →
  Pose.flags points = Pose.flags points'.
Proof.
  intros Hlen Hlen' Hsame. unfold Pose.flags.
  destruct (Nat.leb_spec 11 (length points)) as [_|]; [|lia].
  destruct (Nat.leb_spec 11 (length points')) as [_|]; [|lia].
  rewrite !y_at_in_range by lia.
  rewrite !Hsame by set_solver. reflexivity.
Qed.

Lemma flags_read_five_coordinates_witness :
  Pose.flags (fa := Demo.arith) Demo.keypoints17
  = Pose.flags (fa := Demo.arith)
      (map (fun p => (0%Q, p.2)) (take 11 Demo.keypoints17)).
Proof.
  apply flags_read_five_coordinates; [simpl; lia | simpl; lia |].
  intros i Hi.
  repeat (apply elem_of_cons in Hi as [->|Hi]; [reflexivity|]).
  by apply elem_of_nil in Hi.
Defined.

(** X7. Wrists are not checked for validity: a wrist that was not located
    (y = 0, or any y not above 0) counts as a raised hand as soon as its
    shoulder lies lower than 50 pixels from the top. *)
Theorem lost_wrist_counts_as_raised `{fa : FloatArith} (points : list (Q * Q)) :
  (11 ≤ length points)%nat →
  ((Spec.y points 9 <= 0)%Q ∧ (50 < Spec.y points 5)%Q)
  ∨ ((Spec.y points 10 <= 0)%Q ∧ (50 < Spec.y points 6)%Q) →
  ∃ hd, Pose.flags points = Ok (hd, true).
Proof.
  intros Hlen Hlost.
  destruct (pose_flags_total_aux points Hlen) as (hd & hr & Hflags & Hhr).
  exists hd. rewrite Hflags. do 2 f_equal. apply Hhr.
  unfold Spec.hand_raised_claimed.
  destruct Hlost as [[Hw Hs]|[Hw Hs]]; [left|right];
    (eapply Qle_lt_trans; [exact Hw|]);
    by apply f32_sub_positive.
Qed.

Lemma lost_wrist_counts_as_raised_witness :
  Pose.flags (fa := Demo.arith) DemoStream.lost_wrists = Ok (false, true).
Proof.
  destruct (lost_wrist_counts_as_raised (fa := Demo.arith) DemoStream.lost_wrists)
    as [hd Hhd].
  - simpl. lia.
  - left. split; vm_compute; [discriminate | reflexivity].
  - rewrite Hhd. vm_compute in Hhd. by injection Hhd as <-.
Defined.

(** ** Storage: failures, paging, reset *)

(** X8. [save_session] is not atomic. With a session file that cannot be
    parsed it raises before writing anything; with a readable session file
    and a statistics file that cannot be parsed it raises after the log was
    rewritten, so the new record is in the log and in no statistics. It
    succeeds exactly when neither file is unparseable. *)
Theorem save_session_failure_modes {Image : Type} (w : World Image)
    (r : AnalysisResult) (now : string) :
  (sessions_file w = Garbled →
     save_session r now w = (Raise "JSONDecodeError", w))
  ∧ (∀ l, read_json [] (sessions_file w) = Ok l → stats_file w = Garbled →
       save_session r now w
       = (Raise "JSONDecodeError",
          mkWorld (latest_frames w) (Holds (take 1000 (r :: l))) Garbled))
  ∧ ((save_session r now w).1 = Ok tt
     ↔ sessions_file w ≠ Garbled ∧ stats_file w ≠ Garbled).
Proof.
  split; [|split].
  - intros Hg. apply save_session_raises_early. by rewrite Hg.
  - intros l Hl Hg. unfold save_session; run_handler. rewrite Hl.
    cbn [write_sessions]. rewrite (update_statistics_raises _ r now "JSONDecodeError");
      [by rewrite Hg | by cbn; rewrite Hg].
  - split.
    + intros Hok. split; intros Hg.
      * rewrite (save_session_raises_early w r now "JSONDecodeError") in Hok;
          [discriminate | by rewrite Hg].
      * destruct (read_json [] (sessions_file w)) as [l|e] eqn:Hl.
        -- revert Hok. unfold save_session; run_handler. rewrite Hl.
           cbn [write_sessions].
           rewrite (update_statistics_raises _ r now "JSONDecodeError");
             [discriminate | by cbn; rewrite Hg].
        -- by rewrite (save_session_raises_early w r now e Hl) in Hok.
    + intros [Hs Ht].
      destruct (read_json_not_garbled [] _ Hs) as [l Hl].
      destruct (read_json_not_garbled default_statistics _ Ht) as [s Hst].
      by rewrite (save_session_run w r now l s Hl Hst).
Qed.

Lemma save_session_failure_modes_witness :
  save_session (Demo.sample 1) "2024-05-01T10:00:01" DemoStream.bad_stats
  = (Raise "JSONDecodeError", mkWorld ∅ (Holds [Demo.sample 1]) Garbled)
  ∧ save_session (Demo.sample 1) "2024-05-01T10:00:01" DemoStream.bad_sessions
    = (Raise "JSONDecodeError", DemoStream.bad_sessions).
Proof.
  destruct (save_session_failure_modes DemoStream.bad_stats (Demo.sample 1)
              "2024-05-01T10:00:01") as (_ & Hlate & _).
  destruct (save_session_failure_modes DemoStream.bad_sessions (Demo.sample 1)
              "2024-05-01T10:00:01") as (Hearly & _ & _).
  split; [exact (Hlate [] eq_refl eq_refl) | exact (Hearly eq_refl)].
Defined.

(** X9. GET /api/sessions returns a prefix of the log (newest first) and
    its length as [count], and changes nothing. A limit of 0 or more gives
    min(limit, length) records; a negative limit is a Python slice from the
    end: it drops the |limit| oldest records. *)
Theorem get_sessions_pages {Image : Type} (w : World Image)
    (l : list AnalysisResult) (limit : Z) :
  read_json [] (sessions_file w) = Ok l →
  ∃ page, get_sessions limit w = (Ok (page, length page), w)
    ∧ page `prefix_of` l
    ∧ ((0 ≤ limit)%Z → length page = (Z.to_nat limit `min` length l)%nat)
    ∧ ((limit < 0)%Z → length page = (length l - Z.to_nat (- limit))%nat)
    ∧ ((Z.of_nat (length l) ≤ limit)%Z → page = l).
Proof.
  intros Hl. unfold get_sessions; run_handler. rewrite Hl. cbn.
  eexists. split; [reflexivity|]. unfold slice_to.
  split; [destruct (0 <=? limit)%Z; apply prefix_take|].
  split; [|split].
  - intros Hpos. destruct (Z.leb_spec 0 limit); [|lia]. apply length_take.
  - intros Hneg. destruct (Z.leb_spec 0 limit); [lia|].
    rewrite length_take. lia.
  - intros Hall. destruct (Z.leb_spec 0 limit); [|lia]. apply take_ge. lia.
Qed.

Lemma get_sessions_pages_witness :
  let w := (record_all (Demo.samples 5) Demo.empty_world).2 in
  (get_sessions (-2) w).1
  = Ok ([Demo.sample 4; Demo.sample 3; Demo.sample 2], 3%nat).
Proof.
  intros w.
  destruct (get_sessions_pages w (reverse (Demo.samples 5).*1) (-2))
    as (page & Hrun & _ & _ & Hneg & _); [reflexivity|].
  rewrite Hrun. vm_compute in Hrun. by injection Hrun as <-.
Defined.

(** X10. POST /api/clear leaves the frame cache alone, can be repeated, and
    repairs unparseable files: after it, whatever the files held, the next
    record is saved and is the only one in the log and in the statistics. *)
Theorem clear_data_repairs {Image : Type} (w : World Image)
    (r : AnalysisResult) (now : string) :
  let w' := (clear_data w).2 in
  latest_frames w' = latest_frames w
  ∧ clear_data w' = (Ok tt, w')
  ∧ ∃ s, save_session r now w'
         = (Ok tt, mkWorld (latest_frames w) (Holds [r]) (Holds s))
    ∧ total_sessions s = 1%Z
    ∧ activities s = {[ activity r := 1%Z ]}
    ∧ unusual_count s = (if is_unusual r then 1 else 0)%Z
    ∧ last_updated s = Some now.
Proof.
  cbv zeta. split; [reflexivity|]. split; [reflexivity|].
  exists (fold_into default_statistics r now).
  split; [by rewrite (save_session_run _ r now [] default_statistics)|].
  unfold fold_into, default_statistics. cbn.
  split; [done|]. split; [by rewrite lookup_empty|]. by destruct (is_unusual r).
Qed.

(** X11. The routes that only read (sessions, stats, active streams, debug)
    never change the cache or the files, also when they raise. *)
Theorem read_routes_change_nothing {Image : Type} `{cv : Vision Image}
    (w : World Image) (limit : Z) :
  (get_sessions limit w).2 = w
  ∧ (get_stats w).2 = w
  ∧ (active_streams w).2 = w
  ∧ (debug_info w).2 = w.
Proof.
  unfold get_sessions, get_stats, debug_info, active_streams; run_handler.
  destruct (read_json [] (sessions_file w)) as [[|r l]|e],
    (read_json default_statistics (stats_file w)) as [s|e']; done.
Qed.

(** ** Live streaming *)

Lemma chunk_payload_aux (frame_bytes : list Byte.byte) :
  chunk_payload (multipart_chunk frame_bytes) = Some frame_bytes.
Proof.
  assert (Hlen : length (multipart_chunk frame_bytes) = (length frame_bytes + 39)%nat).
  { unfold multipart_chunk. rewrite !length_app. cbn. lia. }
  unfold chunk_payload. rewrite Hlen.
  change (length part_head) with 37%nat.
  assert (Hdrop : drop 37 (multipart_chunk frame_bytes) = (frame_bytes ++ crlf)%list)
    by reflexivity.
  rewrite decide_True.
  - rewrite Hdrop, take_app_length'; [done | lia].
  - split; [reflexivity|]. split; [lia|].
    replace (length frame_bytes + 39 - 2)%nat with (37 + length frame_bytes)%nat by lia.
    rewrite <- drop_drop, Hdrop. by rewrite drop_app_length.
Qed.

(** X12. A consumer recovers the encoded frame from a yielded part: the
    part is the fixed 37-byte head, the frame bytes and a closing line
    break, whatever bytes the frame holds. *)
Theorem chunk_payload_round_trip (frame_bytes : list Byte.byte) :
  chunk_payload (multipart_chunk frame_bytes) = Some frame_bytes
  ∧ length (multipart_chunk frame_bytes) = (length frame_bytes + 39)%nat
  ∧ take 37 (multipart_chunk frame_bytes) = part_head.
Proof.
  split; [apply chunk_payload_aux|]. split; [|reflexivity].
  unfold multipart_chunk. rewrite !length_app. cbn. lia.
Qed.

Section StreamingFacts.

Context {Image : Type} `{cv : Vision Image} `{codec : Codec Image}.

(** X13. For a subject that is in the cache at none of its turns, the
    stream consists of the encoded placeholder, once per turn (and of
    nothing if the encoder refuses the placeholder); it never raises on an
    unknown subject. *)
Theorem unseen_subject_gets_placeholder (student_id : string)
    (seen : list (World Image)) :
  (∀ w, w ∈ seen → latest_frames w !! student_id = None) →
  generate_frames student_id seen
  = match imencode (placeholder student_id) with
    | Some buffer => replicate (length seen) (multipart_chunk buffer)
    | None => []
    end.
Proof.
  induction seen as [|w seen IH]; intros Hnone.
  - cbn. by destruct (imencode _).
  - cbn [generate_frames]. unfold stream_turn, current_frame.
    rewrite (Hnone w) by by left.
    rewrite IH by (intros w' Hw'; apply Hnone; by right).
    by destruct (imencode (placeholder student_id)).
Qed.

(** X14. Every part the generator yields is well formed and carries the
    encoding of the frame that was current for the subject at one of its
    turns; it yields at most one part per turn, and exactly one per turn
    when the encoder accepts every frame. *)
Theorem generate_frames_yields_current_frames (student_id : string)
    (seen : list (World Image)) :
  (length (generate_frames student_id seen) ≤ length seen)%nat
  ∧ (∀ chunk, chunk ∈ generate_frames student_id seen →
       ∃ w buffer, w ∈ seen
         ∧ imencode (current_frame student_id w) = Some buffer
         ∧ chunk_payload chunk = Some buffer)
  ∧ ((∀ frame, is_Some (imencode frame)) →
       length (generate_frames student_id seen) = length seen).
Proof.
  split; [|split].
  - induction seen as [|w seen IH]; [done|]. cbn.
    destruct (stream_turn student_id w); cbn; lia.
  - induction seen as [|w seen IH]; intros chunk Hin.
    + by apply elem_of_nil in Hin.
    + cbn in Hin. unfold stream_turn in Hin.
      destruct (imencode (current_frame student_id w)) as [buffer|] eqn:He.
      * apply elem_of_cons in Hin as [->|Hin].
        -- exists w, buffer. split; [by left|]. split; [done|].
           apply chunk_payload_aux.
        -- destruct (IH chunk Hin) as (w' & b & Hw' & H'). exists w', b.
           split; [by right | done].
      * destruct (IH chunk Hin) as (w' & b & Hw' & H'). exists w', b.
        split; [by right | done].
  - intros Hall. induction seen as [|w seen IH]; [done|]. cbn.
    unfold stream_turn. destruct (Hall (current_frame student_id w)) as [b ->].
    cbn. by rewrite IH.
Qed.

(** X15. What a camera uploads is what its viewers get: after any request
    whose image decoded (reply 200 or 500), the next turn of the subject's
    stream yields the encoding of that image, and the streams of all other
    subjects are as before. Recording and reset do not touch any stream. *)
Theorem uploaded_frame_is_streamed (request : Request) (t_result t_stats : string)
    (w : World Image) (image_bytes : list Byte.byte) (image : Image) :
  let sid := default "unknown" (multi_get "student_id" (form request)) in
  let w' := (analyze request t_result t_stats w).2 in
  multi_get "image" (files request) = Some image_bytes →
  imdecode image_bytes = Ok (Some image) →
  stream_turn sid w' = multipart_chunk <$> imencode image
  ∧ (∀ other, other ≠ sid → stream_turn other w' = stream_turn other w)
  ∧ (∀ other r now, stream_turn other (save_session r now w').2 = stream_turn other w')
  ∧ (∀ other, stream_turn other (clear_data w').2 = stream_turn other w').
Proof.
  intros sid w' Hf Hd.
  assert (Hfr : latest_frames w' = <[sid := image]> (latest_frames w)).
  { unfold w'. destruct (classify image sid t_result) as [r|e] eqn:Hc.
    - rewrite (analyze_classified request t_result t_stats w _ _ _ Hf Hd Hc).
      pose proof (save_session_frames (store_frame sid image w).2 r t_stats) as Hs.
      fold sid. by destruct (save_session r t_stats _) as [[[]|e] w1].
    - by rewrite (analyze_classifier_raises request t_result t_stats w _ _ _ Hf Hd Hc). }
  unfold stream_turn, current_frame. split; [|split; [|split]].
  - rewrite Hfr, lookup_insert_eq. by destruct (imencode image).
  - intros other Hne. by rewrite Hfr, lookup_insert_ne.
  - intros other r now. by rewrite save_session_frames.
  - done.
Qed.

End StreamingFacts.

Lemma unseen_subject_gets_placeholder_witness :
  @generate_frames _ DemoStream.codec "cam9"
    [Demo.empty_world; Demo.empty_world]
  = replicate 2
      (multipart_chunk
         (Byte.xff :: Byte.xd8 :: list_byte_of_string "Waiting for cam9...")).
Proof.
  rewrite (@unseen_subject_gets_placeholder _ DemoStream.codec "cam9"
             [Demo.empty_world; Demo.empty_world]).
  - reflexivity.
  - intros w Hw. repeat (apply elem_of_cons in Hw as [->|Hw]; [reflexivity|]).
    by apply elem_of_nil in Hw.
Defined.

Lemma uploaded_frame_is_streamed_witness :
  let w' := (@analyze _ Demo.with_broken_model Demo.request_cam1
               "2024-05-01T10:00:00" "2024-05-01T10:00:01" Demo.empty_world).2 in
  @stream_turn _ DemoStream.codec "cam1" w'
  = Some (multipart_chunk (Byte.xff :: Byte.xd8 :: Demo.jpeg)).
Proof.
  intros w'.
  destruct (@uploaded_frame_is_streamed _ Demo.with_broken_model DemoStream.codec
              Demo.request_cam1 "2024-05-01T10:00:00" "2024-05-01T10:00:01"
              Demo.empty_world Demo.jpeg Demo.jpeg eq_refl eq_refl) as [H _].
  exact H.
Defined.

(** ** The routes together *)

Lemma active_streams_member {Image} (w : World Image) (sid : string) :
  sid ∈ (map_to_list (latest_frames w)).*1 ↔ is_Some (latest_frames w !! sid).
Proof.
  rewrite list_elem_of_fmap. split.
  - intros ([k frame] & -> & Hin). apply elem_of_map_to_list in Hin. by exists frame.
  - intros [frame Hf]. exists (sid, frame). split; [done|].
    by apply elem_of_map_to_list.
Qed.

Lemma occurrences_reverse a l :
  Spec.occurrences a (reverse l) = Spec.occurrences a l.
Proof. unfold Spec.occurrences. by rewrite filter_reverse, length_reverse. Qed.

Lemma occurrences_take_le a n l :
  (Spec.occurrences a (take n l) ≤ Spec.occurrences a l)%Z.
Proof.
  rewrite <- (take_drop n l) at 2. unfold Spec.occurrences.
  rewrite filter_app, length_app. lia.
Qed.

(** X16. The debug route counts the records kept in the log, its statistics
    count the records ever saved: after N records into empty files the
    first is min(N, 1000) and the second is N. Its recent sessions are the
    5 newest, and its streams are the subjects with a cached frame. *)
Theorem debug_counts_log_and_history {Image : Type} `{cv : Vision Image}
    (w : World Image) (rs : list (AnalysisResult * string)) :
  sessions_file w = Missing → stats_file w = Missing →
  ∃ w' d, record_all rs w = (Ok tt, w')
    ∧ debug_info w' = (Ok d, w')
    ∧ dbg_total_sessions d = (length rs `min` 1000)%nat
    ∧ total_sessions (dbg_statistics d) = Z.of_nat (length rs)
    ∧ dbg_recent_sessions d = take 5 (reverse rs.*1)
    ∧ (∀ sid, sid ∈ dbg_active_streams d ↔ is_Some (latest_frames w !! sid)).
Proof.
  intros Hl Hs.
  destruct (record_all_run rs w [] default_statistics)
    as (w' & Hrun & Hfr & Hl' & Hs'); [by rewrite Hl | by rewrite Hs | simpl; lia |].
  destruct (fold_into_batch rs default_statistics) as (Ht & _).
  eexists w', _. split; [exact Hrun|].
  unfold debug_info, active_streams; run_handler. rewrite Hl', Hs'. cbn.
  split; [reflexivity|]. cbn.
  rewrite app_nil_r, length_take, length_reverse, length_fmap, take_take.
  split; [lia|]. split; [rewrite Ht; cbn; lia|]. split; [done|].
  intros sid. rewrite Hfr. apply active_streams_member.
Qed.

Lemma debug_counts_log_and_history_witness :
  ∃ w' d, @debug_info _ Demo.with_models w' = (Ok d, w')
    ∧ record_all (Demo.samples 1003) Demo.empty_world = (Ok tt, w')
    ∧ dbg_total_sessions d = 1000%nat
    ∧ total_sessions (dbg_statistics d) = 1003%Z.
Proof.
  destruct (@debug_counts_log_and_history _ Demo.with_models Demo.empty_world
              (Demo.samples 1003) eq_refl eq_refl)
    as (w' & d & Hrun & Hd & Hn & Ht & _).
  exists w', d. split; [exact Hd|]. split; [exact Hrun|].
  split; [rewrite Hn; reflexivity | rewrite Ht; reflexivity].
Defined.

(** X17. The statistics always cover the log: after any number of records
    into empty files, each activity's count and the total are at least what
    the log holds, and they agree with the log while no more than 1000
    records were saved. *)
Theorem statistics_cover_the_log {Image : Type} (w : World Image)
    (rs : list (AnalysisResult * string)) :
  sessions_file w = Missing → stats_file w = Missing →
  ∃ w' s log, record_all rs w = (Ok tt, w')
    ∧ read_json default_statistics (stats_file w') = Ok s
    ∧ read_json [] (sessions_file w') = Ok log
    ∧ (∀ a, Spec.occurrences a log ≤ default 0 (activities s !! a))%Z
    ∧ (Z.of_nat (length log) ≤ total_sessions s)%Z
    ∧ ((length rs ≤ 1000)%nat →
         (∀ a, Spec.occurrences a log = default 0%Z (activities s !! a))
         ∧ Z.of_nat (length log) = total_sessions s).
Proof.
  intros Hl Hs.
  destruct (record_all_run rs w [] default_statistics)
    as (w' & Hrun & _ & Hl' & Hs'); [by rewrite Hl | by rewrite Hs | simpl; lia |].
  destruct (fold_into_batch rs default_statistics) as (Ht & _ & _ & Hocc).
  eexists w', _, _. split; [exact Hrun|]. split; [exact Hs'|]. split; [exact Hl'|].
  rewrite app_nil_r.
  assert (Hcount : ∀ a, default 0%Z
             (activities (fold_left (fun s rn => fold_into s rn.1 rn.2) rs
                            default_statistics) !! a)
           = Spec.occurrences a rs.*1).
  { intros a. rewrite Hocc. unfold default_statistics. cbn [activities].
    rewrite lookup_empty. cbn. lia. }
  split; [|split].
  - intros a. rewrite Hcount, <- (occurrences_reverse a rs.*1).
    apply occurrences_take_le.
  - rewrite Ht, length_take, length_reverse, length_fmap.
    unfold default_statistics. cbn [total_sessions]. lia.
  - intros Hsmall.
    rewrite take_ge by (rewrite length_reverse, length_fmap; lia).
    split.
    + intros a. by rewrite Hcount, occurrences_reverse.
    + rewrite Ht, length_reverse, length_fmap.
      unfold default_statistics. cbn [total_sessions]. lia.
Qed.

Lemma statistics_cover_the_log_witness :
  ∃ w' s log, record_all (Demo.samples 8) Demo.empty_world = (Ok tt, w')
    ∧ read_json default_statistics (stats_file w') = Ok s
    ∧ read_json [] (sessions_file w') = Ok log
    ∧ Spec.occurrences "Using Phone" log = default 0%Z (activities s !! "Using Phone")
    ∧ Z.of_nat (length log) = total_sessions s.
Proof.
  destruct (statistics_cover_the_log Demo.empty_world (Demo.samples 8) eq_refl eq_refl)
    as (w' & s & log & Hrun & Hs & Hl & _ & _ & Hsmall).
  destruct Hsmall as [Hocc Hlen]; [cbn; lia|].
  exists w', s, log. auto.
Defined.

Section RouteFacts.

Context {Image : Type} `{cv : Vision Image}.

(** X18. Which classifier runs is decided by the two model globals alone:
    the fallback runs as soon as one model is missing and then never
    raises; a record tells which one produced it, and always carries the
    subject and the clock reading it was given. *)
Theorem classifier_choice (image : Image) (sid now : string) :
  ((object_detector = None ∨ pose_detector = None) →
     classify image sid now = Ok (analyze_image_basic image sid now))
  ∧ (is_Some object_detector → is_Some pose_detector →
     classify image sid now = analyze_image_advanced image sid now)
  ∧ (∀ r, classify image sid now = Ok r →
       student_id r = sid ∧ timestamp r = now
       ∧ match aux r with
         | PoseAux _ _ => is_Some object_detector ∧ is_Some pose_detector
         | BasicAux _ _ =>
             (object_detector = None ∨ pose_detector = None)
             ∧ objects_detected r = []
         end).
Proof.
  unfold classify. split; [|split].
  - intros [-> | ->]; [done|]. by destruct object_detector.
  - by intros [od ->] [pd ->].
  - intros r. destruct object_detector as [od|] eqn:Hod, pose_detector as [pd|] eqn:Hpd.
    + intros Ha. unfold analyze_image_advanced in Ha.
      destruct (shape image) as [height width].
      destruct (detect_objects image) as [objects|e]; [|discriminate]. cbn in Ha.
      destruct (detect_pose image) as [[hd hr]|e]; [|discriminate]. cbn in Ha.
      injection Ha as <-. cbn. eauto.
    + intros [= <-]. unfold analyze_image_basic.
      destruct (shape image), (estimate_activity _ _ _). cbn. auto.
    + intros [= <-]. unfold analyze_image_basic.
      destruct (shape image), (estimate_activity _ _ _). cbn. auto.
    + intros [= <-]. unfold analyze_image_basic.
      destruct (shape image), (estimate_activity _ _ _). cbn. auto.
Qed.

(** X19. When the form repeats the [student_id] field, the first one names
    the record. *)
Theorem first_student_id_field_wins (request : Request) (t_result t_stats : string)
    (w w' : World Image) (resp : Response) (r : AnalysisResult)
    (before after : list (string * string)) (v : string) :
  analyze request t_result t_stats w = (Ok resp, w') →
  body resp = AnalysisBody r →
  form request = (before ++ ("student_id", v) :: after)%list →
  (∀ v', ("student_id", v') ∉ before) →
  student_id r = v.
Proof.
  intros Hrun Hbody Hform Hfirst.
  destruct (analyze_inv request t_result t_stats w resp w' r Hrun Hbody)
    as (image_bytes & image & _ & _ & Hc & _).
  apply classify_student_id in Hc. rewrite Hc, Hform. clear -Hfirst.
  induction before as [|[k x] before IH]; cbn [app multi_get].
  - by rewrite String.eqb_refl.
  - destruct (String.eqb_spec "student_id" k) as [<-|Hne].
    + destruct (Hfirst x). by left.
    + apply IH. intros v' Hin. apply (Hfirst v'). by right.
Qed.

(** X20. [analyze] always answers, with 200, 400 or 500. It answers 400
    exactly when the request has no image file or the decoder returns
    nothing, and 200 exactly when the body is an analysis. A decoder that
    raises gives 500 and leaves cache and files untouched; a 500 never
    follows a successful save. *)
Theorem analyze_status_taxonomy (request : Request) (t_result t_stats : string)
    (w : World Image) :
  ∃ resp w', analyze request t_result t_stats w = (Ok resp, w')
    ∧ status resp ∈ [200; 400; 500]%Z
    ∧ (status resp = 400%Z
       ↔ multi_get "image" (files request) = None
         ∨ ∃ image_bytes, multi_get "image" (files request) = Some image_bytes
                          ∧ imdecode image_bytes = Ok None)
    ∧ (status resp = 200%Z ↔ ∃ r, body resp = AnalysisBody r)
    ∧ (∀ image_bytes e, multi_get "image" (files request) = Some image_bytes →
         imdecode image_bytes = Raise e →
         resp = mkResponse 500 (ErrorBody e) ∧ w' = w)
    ∧ (status resp ≠ 200%Z →
         stats_file w' = stats_file w).
Proof.
  set (sid := default "unknown" (multi_get "student_id" (form request))).
  destruct (multi_get "image" (files request)) as [image_bytes|] eqn:Hf.
  2:{ eexists _, _. split; [by apply analyze_no_image|]. cbn.
      split; [set_solver|]. split; [by split; auto|].
      split; [split; [done | by intros [r ?]]|]. split; [done|done]. }
  destruct (imdecode image_bytes) as [[image|]|e] eqn:Hd.
  - destruct (classify image sid t_result) as [r|e] eqn:Hc.
    + pose proof (analyze_classified request t_result t_stats w _ _ _ Hf Hd Hc) as Hrun.
      fold sid in Hrun.
      destruct (read_json [] (sessions_file (store_frame sid image w).2))
        as [l|e] eqn:Hl.
      * destruct (read_json default_statistics (stats_file (store_frame sid image w).2))
          as [s|e] eqn:Hs.
        -- rewrite (save_session_run _ r t_stats l s Hl Hs) in Hrun.
           eexists _, _. split; [exact Hrun|]. cbn.
           split; [set_solver|]. split.
           { split; [done|]. intros [[=]|(b & [= <-] & Hb)]. congruence. }
           split; [split; eauto|]. split; [|done].
           intros b e [= <-] Hb. congruence.
        -- assert (Hsave : save_session r t_stats (store_frame sid image w).2
                     = (Raise e, mkWorld (<[sid:=image]> (latest_frames w))
                                   (Holds (take 1000 (r :: l))) (stats_file w))).
           { unfold save_session; run_handler. rewrite Hl. cbn [write_sessions].
             by rewrite (update_statistics_raises _ r t_stats e). }
           rewrite Hsave in Hrun.
           eexists _, _. split; [exact Hrun|]. cbn.
           split; [set_solver|]. split.
           { split; [done|]. intros [[=]|(b & [= <-] & Hb)]. congruence. }
           split; [split; [done | by intros [? ?]]|]. split; [|done].
           intros b e' [= <-] Hb. congruence.
      * rewrite (save_session_raises_early _ r t_stats e Hl) in Hrun.
        eexists _, _. split; [exact Hrun|]. cbn.
        split; [set_solver|]. split.
        { split; [done|]. intros [[=]|(b & [= <-] & Hb)]. congruence. }
        split; [split; [done | by intros [? ?]]|]. split; [|done].
        intros b e' [= <-] Hb. congruence.
    + pose proof (analyze_classifier_raises request t_result t_stats w _ _ _ Hf Hd Hc)
        as Hrun.
      eexists _, _. split; [exact Hrun|]. cbn.
      split; [set_solver|]. split.
      { split; [done|]. intros [[=]|(b & [= <-] & Hb)]. congruence. }
      split; [split; [done | by intros [? ?]]|]. split; [|done].
      intros b e' [= <-] Hb. congruence.
  - eexists _, _. split; [by eapply analyze_undecodable|]. cbn.
    split; [set_solver|]. split; [split; eauto|].
    split; [split; [done | by intros [? ?]]|]. split; [|done].
    intros b e' [= <-] Hb. congruence.
  - eexists _, _. split; [by eapply analyze_decoder_raises|]. cbn.
    split; [set_solver|]. split.
    { split; [done|]. intros [[=]|(b & [= <-] & Hb)]. congruence. }
    split; [split; [done | by intros [? ?]]|]. split; [|done].
    intros b e' [= <-] Hb. split; congruence.
Qed.

(** X21. An accepted upload is visible at once: after a 200 reply the
    newest session is the returned analysis, the statistics count one more
    session and carry the new time stamp, and the subject is among the
    active streams. *)
Theorem accepted_upload_is_visible (request : Request) (t_result t_stats : string)
    (w w' : World Image) (resp : Response) (r : AnalysisResult) :
  analyze request t_result t_stats w = (Ok resp, w') →
  body resp = AnalysisBody r →
  get_sessions 1 w' = (Ok ([r], 1%nat), w')
  ∧ (∃ s s', read_json default_statistics (stats_file w) = Ok s
       ∧ load_statistics w' = (Ok s', w')
       ∧ total_sessions s' = (total_sessions s + 1)%Z
       ∧ last_updated s' = Some t_stats)
  ∧ (∃ streams, active_streams w' = (Ok streams, w') ∧ student_id r ∈ streams).
Proof.
  intros Hrun Hbody.
  destruct (analyze_inv request t_result t_stats w resp w' r Hrun Hbody)
    as (image_bytes & image & Hf & Hd & Hc & Hsave & ->).
  set (sid := default "unknown" (multi_get "student_id" (form request))) in *.
  set (w1 := (store_frame sid image w).2) in *.
  destruct (read_json [] (sessions_file w1)) as [l|e] eqn:Hl.
  2:{ rewrite (save_session_raises_early _ r t_stats e Hl) in Hsave. discriminate. }
  destruct (read_json default_statistics (stats_file w1)) as [s|e] eqn:Hs.
  2:{ revert Hsave. unfold save_session; run_handler. rewrite Hl.
      cbn [write_sessions]. rewrite (update_statistics_raises _ r t_stats e);
        [discriminate | exact Hs]. }
  rewrite (save_session_run w1 r t_stats l s Hl Hs) in Hsave.
  injection Hsave as <-. split; [|split].
  - reflexivity.
  - exists s, (fold_into s r t_stats). split; [exact Hs|]. by split.
  - eexists. split; [reflexivity|]. apply active_streams_member. cbn.
    rewrite (classify_student_id _ _ _ _ Hc). rewrite lookup_insert_eq. eauto.
Qed.

End RouteFacts.

(** ** Instances *)

Lemma pose_reading_never_fails_witness :
  ∃ pose, @pose_detector _ DemoStream.with_broken_pose = Some pose
          ∧ pose Demo.jpeg = Raise "RuntimeError".
Proof.
  destruct (pose_reading_never_fails (fa := Demo.arith)) as (_ & _ & H).
  exact (H _ DemoStream.with_broken_pose Demo.jpeg "RuntimeError" eq_refl).
Defined.

Lemma generate_frames_yields_current_frames_witness :
  length (@generate_frames _ DemoStream.codec "cam1"
            [Demo.empty_world; mkWorld {[ "cam1" := [Byte.x01] ]} Missing Missing;
             mkWorld {[ "cam1" := Demo.jpeg ]} Missing Missing]) = 2%nat
  ∧ ∃ w buffer,
      @imencode _ DemoStream.codec (@current_frame _ DemoStream.codec "cam1" w)
      = Some buffer
      ∧ chunk_payload (multipart_chunk (Byte.xff :: Byte.xd8 :: Demo.jpeg))
        = Some buffer.
Proof.
  split; [reflexivity|].
  destruct (@generate_frames_yields_current_frames _ DemoStream.codec "cam1"
              [Demo.empty_world; mkWorld {[ "cam1" := [Byte.x01] ]} Missing Missing;
               mkWorld {[ "cam1" := Demo.jpeg ]} Missing Missing])
    as (_ & Hin & _).
  destruct (Hin (multipart_chunk (Byte.xff :: Byte.xd8 :: Demo.jpeg)))
    as (w & buffer & _ & He & Hp).
  - apply (bool_decide_eq_true_1 _). vm_compute. reflexivity.
  - by exists w, buffer.
Defined.

Lemma classifier_choice_witness :
  @classify _ (Demo.vision (Some Demo.detector) None) Demo.empty_desk "cam1"
    "2024-05-01T10:00:00"
  = Ok (@analyze_image_basic _ (Demo.vision (Some Demo.detector) None)
          Demo.empty_desk "cam1" "2024-05-01T10:00:00").
Proof.
  destruct (@classifier_choice _ (Demo.vision (Some Demo.detector) None)
              Demo.empty_desk "cam1" "2024-05-01T10:00:00") as (H & _).
  apply H. by right.
Defined.

Lemma first_student_id_field_wins_witness :
  ∃ r w', @analyze _ Demo.with_models DemoStream.request_twice
            "2024-05-01T10:00:00" "2024-05-01T10:00:01" Demo.empty_world
          = (Ok (mkResponse 200 (AnalysisBody r)), w')
    ∧ student_id r = "cam1".
Proof.
  pose (r := @advanced_result _ Demo.with_models Demo.jpeg "cam1"
               "2024-05-01T10:00:00" ["person"; "cell phone"; "book"] true true).
  pose (out := @analyze _ Demo.with_models DemoStream.request_twice
                 "2024-05-01T10:00:00" "2024-05-01T10:00:01" Demo.empty_world).
  assert (Hrun : out = (Ok (mkResponse 200 (AnalysisBody r)), out.2))
    by (vm_compute; reflexivity).
  exists r, out.2. split; [exact Hrun|].
  apply (@first_student_id_field_wins _ Demo.with_models DemoStream.request_twice
           "2024-05-01T10:00:00" "2024-05-01T10:00:01" Demo.empty_world out.2
           (mkResponse 200 (AnalysisBody r)) r [("note", "x")]
           [("student_id", "cam2")] "cam1" Hrun eq_refl eq_refl).
  intros v' [[=]|Hin]%elem_of_cons. by apply elem_of_nil in Hin.
Defined.

Lemma analyze_status_taxonomy_witness :
  ∃ w', @analyze _ Demo.with_models Demo.request_bad_image
          "2024-05-01T10:00:00" "2024-05-01T10:00:01" Demo.empty_world
        = (Ok (mkResponse 400 (ErrorBody "Failed to decode image")), w').
Proof.
  destruct (@analyze_status_taxonomy _ Demo.with_models Demo.request_bad_image
              "2024-05-01T10:00:00" "2024-05-01T10:00:01" Demo.empty_world)
    as (resp & w' & Hrun & _ & H400 & _).
  exists w'. rewrite Hrun.
  assert (status resp = 400%Z) as Hs.
  { apply H400. right. by exists [Byte.x00; Byte.x01]. }
  vm_compute in Hrun. by injection Hrun as <- <-.
Defined.

Lemma accepted_upload_is_visible_witness :
  ∃ r w', @analyze _ Demo.with_models Demo.request_cam1
            "2024-05-01T10:00:00" "2024-05-01T10:00:01" Demo.empty_world
          = (Ok (mkResponse 200 (AnalysisBody r)), w')
    ∧ get_sessions 1 w' = (Ok ([r], 1%nat), w')
    ∧ ∃ streams, active_streams w' = (Ok streams, w') ∧ "cam1" ∈ streams.
Proof.
  pose (r := @advanced_result _ Demo.with_models Demo.jpeg "cam1"
               "2024-05-01T10:00:00" ["person"; "cell phone"; "book"] true true).
  pose (out := @analyze _ Demo.with_models Demo.request_cam1
                 "2024-05-01T10:00:00" "2024-05-01T10:00:01" Demo.empty_world).
  assert (Hrun : out = (Ok (mkResponse 200 (AnalysisBody r)), out.2))
    by (vm_compute; reflexivity).
  destruct (@accepted_upload_is_visible _ Demo.with_models Demo.request_cam1
              "2024-05-01T10:00:00" "2024-05-01T10:00:01" Demo.empty_world out.2
              (mkResponse 200 (AnalysisBody r)) r Hrun eq_refl)
    as (Hget & _ & Hstreams).
  exists r, out.2. split; [exact Hrun|]. split; [exact Hget | exact Hstreams].
Defined.
